(** * CreditSea front-end: loan and borrower pages

    A shallow embedding of the client-side logic of the admin and verifier
    pages (search filters, optimistic status updates, dashboard statistics,
    table pagination and the per-row action buttons), followed by the
    properties established about it.

    Conventions.
    - A React page is modelled by the part of its [useState] store that the
      modelled code reads or writes; handlers are state-passing functions.
    - The outcome of an awaited [api.patch] call is an explicit argument
      ([ApiResult]): the backend is not part of the repository.
    - [toast] is a write to a log of toasts.
    - JavaScript strings are modelled by [string] (8-bit characters) and
      [toLowerCase]/[toUpperCase] by their action on ASCII letters.
    - JavaScript numbers that hold counts, indices and amounts are modelled
      by [Z]; the text produced by [toFixed] on a quotient is kept symbolic.
      Sums are exact, as the doubles of the code are while the amounts are
      integers and the sums stay within [Number.MAX_SAFE_INTEGER].
    - Applying a handler to the result of another models a request made
      after the first was answered and rendered; requests that overlap are
      modelled apart ([resolveLater]). *)

From Stdlib Require Import ZArith QArith Qround String Ascii List Lia Bool.
From stdpp Require Import base decidable list sets relations.
Import ListNotations.

#[local] Open Scope Z_scope.

(** ** JavaScript built-ins used by the pages *)

Module Js.

(** [c.toLowerCase()] on one ASCII character. *)
Definition lowerChar (c : ascii) : ascii :=
  let n := N_of_ascii c in
  if ((65 <=? n) && (n <=? 90))%N then ascii_of_N (n + 32) else c.

(** [c.toUpperCase()] on one ASCII character. *)
Definition upperChar (c : ascii) : ascii :=
  let n := N_of_ascii c in
  if ((97 <=? n) && (n <=? 122))%N then ascii_of_N (n - 32) else c.

Fixpoint mapChars (f : ascii -> ascii) (s : string) : string :=
  match s with
  | EmptyString => EmptyString
  | String c s' => String (f c) (mapChars f s')
  end.

(** [String.prototype.toLowerCase]. *)
Definition toLowerCase : string -> string := mapChars lowerChar.

(** [String.prototype.toUpperCase]. *)
Definition toUpperCase : string -> string := mapChars upperChar.

(** [s.startsWith(t)]: the characters of [t] are the first ones of [s]. *)
Fixpoint startsWith (s t : string) : bool :=
  match t, s with
  | EmptyString, _ => true
  | String _ _, EmptyString => false
  | String c t', String d s' => Ascii.eqb d c && startsWith s' t'
  end.

(** [String.prototype.includes]: [t] occurs in [s] at some position. *)
Fixpoint includes (s t : string) : bool :=
  startsWith s t
  || match s with
     | EmptyString => false
     | String _ s' => includes s' t
     end.

(** [a || b] on a possibly missing string: [undefined] and the empty
    string are both falsy. *)
Definition orElse (a : option string) (b : string) : string :=
  match a with
  | Some EmptyString | None => b
  | Some s => s
  end.

(** [Array.prototype.slice(start, end)], with the relative (negative)
    indices and the clamping of the language definition. *)
Definition slice {A : Type} (l : list A) (start end_ : Z) : list A :=
  let len := Z.of_nat (length l) in
  let k := if start <? 0 then Z.max (len + start) 0 else Z.min start len in
  let final := if end_ <? 0 then Z.max (len + end_) 0 else Z.min end_ len in
  take (Z.to_nat (final - k)) (drop (Z.to_nat k) l).

(** [Math.ceil(n / d)] for integral [n] and [d]. *)
Definition ceilDiv (n d : Z) : Z := Qceiling (inject_Z n / inject_Z d).

(** [arr.reduce((sum, x) => sum + f(x), 0)]. *)
Definition sumOf {A : Type} (f : A -> Z) (l : list A) : Z :=
  fold_left (fun sum x => sum + f x) l 0.

End Js.

(** ** Shared vocabulary *)

(** The union type of [Loan["status"]] on the admin loans page. *)
Module LoanStatus.
Inductive t :=
  | pending | verified | approved | disbursed
  | repaying | completed | defaulted | rejected.
End LoanStatus.
Import LoanStatus.
Abbreviation LoanStatus := LoanStatus.t.

#[global] Instance LoanStatus_eq_dec : EqDecision LoanStatus.
Proof. solve_decision. Defined.

(** The string literal behind each status. *)
Definition statusString (s : LoanStatus) : string :=
  match s with
  | pending => "pending"
  | verified => "verified"
  | approved => "approved"
  | disbursed => "disbursed"
  | repaying => "repaying"
  | completed => "completed"
  | defaulted => "defaulted"
  | rejected => "rejected"
  end.

(** [UserRole]; its declaration lives in the auth context, the values are
    the ones offered by the role selector of the user-management page. *)
Inductive UserRole := admin | verifier | user.

#[global] Instance UserRole_eq_dec : EqDecision UserRole.
Proof. solve_decision. Defined.

(** Outcome of an awaited [api.patch]: the promise resolves, or it rejects
    and [error.response?.data?.message] is the carried message, if any. *)
Inductive ApiResult :=
  | Resolved
  | Rejected (message : option string).

(** Argument of [toast]. *)
Record Toast := {
  variant : option string;
  title : string;
  description : string
}.

(** What a percentage cell renders: the number [0] of the guard's else
    branch, or the text of [((num / den) * 100).toFixed(1)]. The second is
    a floating-point rendering and is kept as its two operands. *)
Inductive Percent :=
  | Zero
  | Fixed1 (num den : Z).

(** The inline expression [den > 0 ? ((num / den) * 100).toFixed(1) : 0]. *)
Definition guardedPercent (num den : Z) : Percent :=
  if 0 <? den then Fixed1 num den else Zero.


(** The callback shared by the status handlers,
    [r => r.id === X ? change(r) : r], over any record with an identifier. *)
Definition mapById {A : Type} (getId : A -> string) (change : A -> A)
    (X : string) (r : A) : A :=
  if String.eqb (getId r) X then change r else r.

(** *** Table pagination

    The four tables ([LoanTable] twice, [BorrowerTable] twice) start with
    the same five lines. *)

Module Pagination.

(** [const [itemsPerPage] = useState(5)]. *)
Definition itemsPerPage : Z := 5.

Section Table.
Context {A : Type}.
Variable rows : list A.
Variable currentPage : Z.

Definition indexOfLastItem : Z := currentPage * itemsPerPage.
Definition indexOfFirstItem : Z := indexOfLastItem - itemsPerPage.
Definition currentRows : list A :=
  Js.slice rows indexOfFirstItem indexOfLastItem.
Definition totalPages : Z :=
  Js.ceilDiv (Z.of_nat (length rows)) itemsPerPage.

(** The pager is rendered only when [rows.length > itemsPerPage]. *)
Definition pagerShown : bool := itemsPerPage <? Z.of_nat (length rows).
Definition prevDisabled : bool := bool_decide (currentPage = 1).
Definition nextDisabled : bool := bool_decide (currentPage = totalPages).
End Table.

(** Page numbers [1 .. n]. *)
Definition pageNumbers (n : Z) : list Z :=
  (fun i => Z.of_nat i + 1) <$> seq 0 (Z.to_nat n).

(** All pages of a table, first to last. *)
Definition allPages {A : Type} (rows : list A) : list (list A) :=
  currentRows rows <$> pageNumbers (totalPages rows).

End Pagination.


(** ** Admin loans page ([AdminLoans] and its [LoanTable]) *)

Module AdminLoans.

(** The populated [user] of a loan. *)
Module User.
Record t := { _id : string; name : string; email : string }.
End User.

(** [interface Loan]. Every field but [disbursementDate] is declared
    required, so the optional chaining of the search filter never
    short-circuits on a value of this type. *)
Record Loan := {
  _id : string;
  user : User.t;
  amount : Z;
  interestRate : Z;
  tenure : Z;
  applicationDate : string;
  disbursementDate : option string;
  status : LoanStatus;
  reason : string;
  amountPaid : Z;
  totalAmountPayable : Z
}.

(** The store of the page, as far as the modelled code touches it. *)
Record State := {
  loans : list Loan;
  searchTerm : string;
  toasts : list Toast
}.

(** The object spread [{ ...loan, status: newStatus }]. *)
Definition withStatus (newStatus : LoanStatus) (loan : Loan) : Loan :=
  {| _id := _id loan;
     user := user loan;
     amount := amount loan;
     interestRate := interestRate loan;
     tenure := tenure loan;
     applicationDate := applicationDate loan;
     disbursementDate := disbursementDate loan;
     status := newStatus;
     reason := reason loan;
     amountPaid := amountPaid loan;
     totalAmountPayable := totalAmountPayable loan |}.

(** The callback of [loans.filter] behind [filteredLoans]. *)
Definition matchesSearch (term : string) (loan : Loan) : bool :=
  Js.includes (Js.toLowerCase (User.name (user loan))) (Js.toLowerCase term)
  || Js.includes (Js.toLowerCase (reason loan)) (Js.toLowerCase term)
  || Js.includes (Js.toLowerCase (statusString (status loan)))
                 (Js.toLowerCase term).

Definition filterLoans (term : string) (ls : list Loan) : list Loan :=
  List.filter (matchesSearch term) ls.

Definition filteredLoans (st : State) : list Loan :=
  filterLoans (searchTerm st) (loans st).

(** The callback of [loans.map] in [handleUpdateStatus]. *)
Definition updateOne (loanId : string) (newStatus : LoanStatus)
    (loan : Loan) : Loan :=
  if String.eqb (_id loan) loanId then withStatus newStatus loan else loan.

(** [handleUpdateStatus]: the [try] branch when the PATCH resolves, the
    [catch] branch when it rejects. *)
Definition handleUpdateStatus (api : ApiResult) (st : State)
    (loanId : string) (newStatus : LoanStatus) : State :=
  match api with
  | Resolved =>
      {| loans := updateOne loanId newStatus <$> loans st;
         searchTerm := searchTerm st;
         toasts := toasts st ++
           [ {| variant := None;
                title := "Status Updated";
                description :=
                  String.append "Loan status has been updated to "
                    (Js.toUpperCase (statusString newStatus)) |} ] |}
  | Rejected message =>
      {| loans := loans st;
         searchTerm := searchTerm st;
         toasts := toasts st ++
           [ {| variant := Some "destructive"%string;
                title := "Failed to update status";
                description :=
                  Js.orElse message
                    "There was an error updating the loan status." |} ] |}
  end.

(** The four statistics computed before rendering. *)
Definition totalLoans (ls : list Loan) : Z := Z.of_nat (length ls).
Definition totalAmount (ls : list Loan) : Z := Js.sumOf amount ls.
Definition totalDisbursed (ls : list Loan) : Z :=
  Js.sumOf amount
    (List.filter
       (fun loan =>
          bool_decide (status loan ∈ [disbursed; repaying; completed; defaulted]))
       ls).
Definition totalRepaid (ls : list Loan) : Z := Js.sumOf amountPaid ls.

(** "% of total amount" and "% of disbursed amount". *)
Definition disbursedPercent (ls : list Loan) : Percent :=
  guardedPercent (totalDisbursed ls) (totalAmount ls).
Definition repaidPercent (ls : list Loan) : Percent :=
  guardedPercent (totalRepaid ls) (totalDisbursed ls).

(** The "Paid" cell of one row. *)
Definition paidPercent (loan : Loan) : Percent :=
  guardedPercent (amountPaid loan) (totalAmountPayable loan).

(** The status buttons of one row of [LoanTable], in rendering order:
    each is the target passed to [onUpdateStatus]. *)
Definition rowActions (s : LoanStatus) : list LoanStatus :=
  (if bool_decide (s = pending) then [verified] else [])
  ++ (if bool_decide (s = verified) then [approved] else [])
  ++ (if bool_decide (s = approved) then [disbursed] else [])
  ++ (if bool_decide (s = disbursed) then [repaying] else [])
  ++ (if bool_decide (s = repaying) then [completed] else [])
  ++ (if bool_decide (s ∈ [pending; verified; approved])
      then [rejected] else [])
  ++ (if bool_decide (s ∈ [disbursed; repaying])
      then [defaulted] else []).

(** [<ProtectedRoute allowedRoles={["admin"]}>]. *)
Definition allowedRoles : list UserRole := [admin].

End AdminLoans.


(** ** Verifier loans page ([VerifierLoans] and its [LoanTable]) *)

Module VerifierLoans.

(** [Loan["status"]] of this page: ["pending" | "verified" | "rejected"]. *)
Inductive Status := pending | verified | rejected.

#[global] Instance Status_eq_dec : EqDecision Status.
Proof. solve_decision. Defined.

(** The same literal read at the wider type of the admin page. *)
Definition widen (s : Status) : LoanStatus :=
  match s with
  | pending => LoanStatus.pending
  | verified => LoanStatus.verified
  | rejected => LoanStatus.rejected
  end.

(** The statuses of the wider type that this page's type has. *)
Definition narrow (s : LoanStatus) : option Status :=
  match s with
  | LoanStatus.pending => Some pending
  | LoanStatus.verified => Some verified
  | LoanStatus.rejected => Some rejected
  | _ => None
  end.

Definition statusString (s : Status) : string := statusString (widen s).

Module User.
Record t := { _id : string; name : string; email : string }.
End User.

(** [interface Loan]. *)
Record Loan := {
  _id : string;
  user : User.t;
  amount : Z;
  interestRate : Z;
  tenure : Z;
  reason : string;
  applicationDate : string;
  status : Status;
  documents : option (list string);
  employmentStatus : option string;
  employerName : option string;
  employerAddress : option string
}.

Record State := {
  loans : list Loan;
  searchTerm : string;
  toasts : list Toast
}.

(** [{ ...loan, status: newStatus }]. *)
Definition withStatus (newStatus : Status) (loan : Loan) : Loan :=
  {| _id := _id loan;
     user := user loan;
     amount := amount loan;
     interestRate := interestRate loan;
     tenure := tenure loan;
     reason := reason loan;
     applicationDate := applicationDate loan;
     status := newStatus;
     documents := documents loan;
     employmentStatus := employmentStatus loan;
     employerName := employerName loan;
     employerAddress := employerAddress loan |}.

Definition matchesSearch (term : string) (loan : Loan) : bool :=
  Js.includes (Js.toLowerCase (User.name (user loan))) (Js.toLowerCase term)
  || Js.includes (Js.toLowerCase (reason loan)) (Js.toLowerCase term)
  || Js.includes (Js.toLowerCase (statusString (status loan)))
                 (Js.toLowerCase term).

Definition filterLoans (term : string) (ls : list Loan) : list Loan :=
  List.filter (matchesSearch term) ls.

Definition filteredLoans (st : State) : list Loan :=
  filterLoans (searchTerm st) (loans st).

Definition updateOne (loanId : string) (newStatus : Status)
    (loan : Loan) : Loan :=
  if String.eqb (_id loan) loanId then withStatus newStatus loan else loan.

(** [handleUpdateStatus] of the verifier loans page. *)
Definition handleUpdateStatus (api : ApiResult) (st : State)
    (loanId : string) (newStatus : Status) : State :=
  match api with
  | Resolved =>
      {| loans := updateOne loanId newStatus <$> loans st;
         searchTerm := searchTerm st;
         toasts := toasts st ++
           [ {| variant := None;
                title := "Status Updated";
                description :=
                  String.append "Loan status has been updated to "
                    (statusString newStatus) |} ] |}
  | Rejected message =>
      {| loans := loans st;
         searchTerm := searchTerm st;
         toasts := toasts st ++
           [ {| variant := Some "destructive"%string;
                title := "Failed to update status";
                description :=
                  Js.orElse message
                    "There was an error updating the loan status." |} ] |}
  end.

(** Statistics cards. *)
Definition countStatus (s : Status) (ls : list Loan) : Z :=
  Z.of_nat (length (List.filter (fun l => bool_decide (status l = s)) ls)).
Definition pendingCount := countStatus pending.
Definition verifiedCount := countStatus verified.
Definition rejectedCount := countStatus rejected.
Definition totalAmount (ls : list Loan) : Z := Js.sumOf amount ls.

(** "% of total loans" under each of the three counts. *)
Definition statusPercent (s : Status) (ls : list Loan) : Percent :=
  guardedPercent (countStatus s ls) (Z.of_nat (length ls)).

(** The status buttons of one row: Verify and Reject, on pending rows. *)
Definition rowActions (s : Status) : list Status :=
  if bool_decide (s = pending) then [verified; rejected] else [].

(** [<ProtectedRoute allowedRoles={["verifier"]}>]. *)
Definition allowedRoles : list UserRole := [verifier].

End VerifierLoans.

(** ** Admin borrowers page ([AdminBorrowers] and its [BorrowerTable]) *)

Module AdminBorrowers.

(** [Borrower["status"]]: ["active" | "inactive" | "blacklisted"]. *)
Inductive Status := active | inactive | blacklisted.

#[global] Instance Status_eq_dec : EqDecision Status.
Proof. solve_decision. Defined.

Definition statusString (s : Status) : string :=
  match s with
  | active => "active"
  | inactive => "inactive"
  | blacklisted => "blacklisted"
  end.

(** [interface Borrower]. *)
Record Borrower := {
  _id : string;
  name : string;
  email : string;
  phone : string;
  status : Status;
  loans : Z;
  totalBorrowed : Z;
  lastActivity : string
}.

Record State := {
  borrowers : list Borrower;
  searchTerm : string;
  toasts : list Toast
}.

(** [{ ...borrower, status: newStatus }]. *)
Definition withStatus (newStatus : Status) (b : Borrower) : Borrower :=
  {| _id := _id b;
     name := name b;
     email := email b;
     phone := phone b;
     status := newStatus;
     loans := loans b;
     totalBorrowed := totalBorrowed b;
     lastActivity := lastActivity b |}.

(** The callback of [borrowers.filter]: name and email are compared in
    lower case, the phone as it is. *)
Definition matchesSearch (term : string) (b : Borrower) : bool :=
  Js.includes (Js.toLowerCase (name b)) (Js.toLowerCase term)
  || Js.includes (Js.toLowerCase (email b)) (Js.toLowerCase term)
  || Js.includes (phone b) term.

Definition filterBorrowers (term : string) (bs : list Borrower)
    : list Borrower :=
  List.filter (matchesSearch term) bs.

Definition filteredBorrowers (st : State) : list Borrower :=
  filterBorrowers (searchTerm st) (borrowers st).

Definition updateOne (borrowerId : string) (newStatus : Status)
    (b : Borrower) : Borrower :=
  if String.eqb (_id b) borrowerId then withStatus newStatus b else b.

(** [handleUpdateStatus] of the admin borrowers page. *)
Definition handleUpdateStatus (api : ApiResult) (st : State)
    (borrowerId : string) (newStatus : Status) : State :=
  match api with
  | Resolved =>
      {| borrowers := updateOne borrowerId newStatus <$> borrowers st;
         searchTerm := searchTerm st;
         toasts := toasts st ++
           [ {| variant := None;
                title := "Status Updated";
                description :=
                  String.append "Borrower status has been updated to "
                    (statusString newStatus) |} ] |}
  | Rejected message =>
      {| borrowers := borrowers st;
         searchTerm := searchTerm st;
         toasts := toasts st ++
           [ {| variant := Some "destructive"%string;
                title := "Failed to update status";
                description :=
                  Js.orElse message
                    "There was an error updating the borrower status." |} ] |}
  end.

Definition countStatus (s : Status) (bs : list Borrower) : Z :=
  Z.of_nat (length (List.filter (fun b => bool_decide (status b = s)) bs)).
Definition activeCount := countStatus active.
Definition inactiveCount := countStatus inactive.
Definition blacklistedCount := countStatus blacklisted.

(** "% of total borrowers" under each of the three counts. *)
Definition statusPercent (s : Status) (bs : list Borrower) : Percent :=
  guardedPercent (countStatus s bs) (Z.of_nat (length bs)).

(** Activate, Deactivate and Blacklist: each shown unless it is the
    current status. *)
Definition rowActions (s : Status) : list Status :=
  (if bool_decide (s <> active) then [active] else [])
  ++ (if bool_decide (s <> inactive) then [inactive] else [])
  ++ (if bool_decide (s <> blacklisted) then [blacklisted] else []).

Definition allowedRoles : list UserRole := [admin].

End AdminBorrowers.


(** ** Verifier borrowers page ([VerifierBorrowers] and its [BorrowerTable]) *)

Module VerifierBorrowers.

(** [Borrower["status"]]: ["pending" | "verified" | "rejected"]. *)
Inductive Status := pending | verified | rejected.

#[global] Instance Status_eq_dec : EqDecision Status.
Proof. solve_decision. Defined.

Definition statusString (s : Status) : string :=
  match s with
  | pending => "pending"
  | verified => "verified"
  | rejected => "rejected"
  end.

(** [interface Borrower]. *)
Record Borrower := {
  _id : string;
  name : string;
  email : string;
  phone : string;
  status : Status;
  dateApplied : string;
  documents : list string
}.

Record State := {
  borrowers : list Borrower;
  searchTerm : string;
  toasts : list Toast
}.

(** [{ ...borrower, status: newStatus }]. *)
Definition withStatus (newStatus : Status) (b : Borrower) : Borrower :=
  {| _id := _id b;
     name := name b;
     email := email b;
     phone := phone b;
     status := newStatus;
     dateApplied := dateApplied b;
     documents := documents b |}.

Definition matchesSearch (term : string) (b : Borrower) : bool :=
  Js.includes (Js.toLowerCase (name b)) (Js.toLowerCase term)
  || Js.includes (Js.toLowerCase (email b)) (Js.toLowerCase term)
  || Js.includes (phone b) term.

Definition filterBorrowers (term : string) (bs : list Borrower)
    : list Borrower :=
  List.filter (matchesSearch term) bs.

Definition filteredBorrowers (st : State) : list Borrower :=
  filterBorrowers (searchTerm st) (borrowers st).

Definition updateOne (borrowerId : string) (newStatus : Status)
    (b : Borrower) : Borrower :=
  if String.eqb (_id b) borrowerId then withStatus newStatus b else b.

(** [handleUpdateStatus] of the verifier borrowers page. *)
Definition handleUpdateStatus (api : ApiResult) (st : State)
    (borrowerId : string) (newStatus : Status) : State :=
  match api with
  | Resolved =>
      {| borrowers := updateOne borrowerId newStatus <$> borrowers st;
         searchTerm := searchTerm st;
         toasts := toasts st ++
           [ {| variant := None;
                title := "Status Updated";
                description :=
                  String.append "Borrower status has been updated to "
                    (statusString newStatus) |} ] |}
  | Rejected message =>
      {| borrowers := borrowers st;
         searchTerm := searchTerm st;
         toasts := toasts st ++
           [ {| variant := Some "destructive"%string;
                title := "Failed to update status";
                description :=
                  Js.orElse message
                    "There was an error updating the borrower status." |} ] |}
  end.

Definition countStatus (s : Status) (bs : list Borrower) : Z :=
  Z.of_nat (length (List.filter (fun b => bool_decide (status b = s)) bs)).
Definition pendingCount := countStatus pending.
Definition verifiedCount := countStatus verified.
Definition rejectedCount := countStatus rejected.

Definition statusPercent (s : Status) (bs : list Borrower) : Percent :=
  guardedPercent (countStatus s bs) (Z.of_nat (length bs)).

Definition rowActions (s : Status) : list Status :=
  if bool_decide (s = pending) then [verified; rejected] else [].

Definition allowedRoles : list UserRole := [verifier].

End VerifierBorrowers.

(** ** Verifier dashboard ([VerifierDashboard]) *)

Module VerifierDashboard.

Module User.
Record t := { id : string; name : string }.
End User.

(** The [Loan] of the dashboard table, with the fields that
    [formattedLoans] fills in. The declaration is imported from the
    dashboard's table component.

    Modelled from the spec: the type of [status], which that component
    declares, is taken to be the eight loan statuses. *)
Record Loan := {
  id : string;
  user : User.t;
  amount : Z;
  date : string;
  status : LoanStatus;
  reason : string
}.

Record State := {
  loans : list Loan;
  toasts : list Toast
}.

(** [{ ...loan, status: newStatus }]. *)
Definition withStatus (newStatus : LoanStatus) (loan : Loan) : Loan :=
  {| id := id loan;
     user := user loan;
     amount := amount loan;
     date := date loan;
     status := newStatus;
     reason := reason loan |}.

Definition updateOne (loanId : string) (newStatus : LoanStatus)
    (loan : Loan) : Loan :=
  if String.eqb (id loan) loanId then withStatus newStatus loan else loan.

(** [handleStatusChange]: the handler handed to the dashboard table. *)
Definition handleStatusChange (api : ApiResult) (st : State)
    (loanId : string) (newStatus : LoanStatus) : State :=
  match api with
  | Resolved =>
      {| loans := updateOne loanId newStatus <$> loans st;
         toasts := toasts st ++
           [ {| variant := None;
                title := "Status Updated";
                description :=
                  String.append "Loan status has been updated to "
                    (statusString newStatus) |} ] |}
  | Rejected message =>
      {| loans := loans st;
         toasts := toasts st ++
           [ {| variant := Some "destructive"%string;
                title := "Failed to update status";
                description :=
                  Js.orElse message
                    "There was an error updating the loan status." |} ] |}
  end.

Definition allowedRoles : list UserRole := [verifier].

End VerifierDashboard.

(** ** Status changes a role can trigger on a loan

    A loan page is wrapped in [ProtectedRoute], which names the roles that
    may see it, and its table renders the status buttons of each row. *)

Record LoanPage := {
  pageRoles : list UserRole;
  (** targets of the buttons rendered on a row in the given status *)
  pageTargets : LoanStatus -> list LoanStatus
}.

Definition adminLoansPage : LoanPage :=
  {| pageRoles := AdminLoans.allowedRoles;
     pageTargets := AdminLoans.rowActions |}.

(** The verifier page holds rows of its own, narrower status type. *)
Definition verifierLoansPage : LoanPage :=
  {| pageRoles := VerifierLoans.allowedRoles;
     pageTargets := fun s =>
       match VerifierLoans.narrow s with
       | Some v => VerifierLoans.widen <$> VerifierLoans.rowActions v
       | None => []
       end |}.

(** The loan pages with status buttons. *)
Definition loanPages : list LoanPage := [adminLoansPage; verifierLoansPage].

(** Every target some page offers to [role] for a loan in status [s]. *)
Definition allowedTargets (role : UserRole) (s : LoanStatus) : list LoanStatus :=
  flat_map
    (fun p => if bool_decide (role ∈ pageRoles p) then pageTargets p s else [])
    loanPages.

(** ** Sample data used by the closed examples *)

Module Samples.

Definition asha : AdminLoans.User.t :=
  {| AdminLoans.User._id := "u1";
     AdminLoans.User.name := "Asha Rao";
     AdminLoans.User.email := "asha@example.com" |}.

(** An approved loan that has not been disbursed yet. *)
Definition approvedLoan : AdminLoans.Loan :=
  {| AdminLoans._id := "loan-1";
     AdminLoans.user := asha;
     AdminLoans.amount := 100000;
     AdminLoans.interestRate := 15;
     AdminLoans.tenure := 12;
     AdminLoans.applicationDate := "2025-01-10";
     AdminLoans.disbursementDate := None;
     AdminLoans.status := approved;
     AdminLoans.reason := "Shop stock";
     AdminLoans.amountPaid := 0;
     AdminLoans.totalAmountPayable := 115000 |}.

Definition pendingLoan : AdminLoans.Loan :=
  {| AdminLoans._id := "loan-2";
     AdminLoans.user := asha;
     AdminLoans.amount := 40000;
     AdminLoans.interestRate := 15;
     AdminLoans.tenure := 6;
     AdminLoans.applicationDate := "2025-02-01";
     AdminLoans.disbursementDate := None;
     AdminLoans.status := pending;
     AdminLoans.reason := "School fees";
     AdminLoans.amountPaid := 0;
     AdminLoans.totalAmountPayable := 43000 |}.

Definition adminLoansState : AdminLoans.State :=
  {| AdminLoans.loans := [pendingLoan; approvedLoan];
     AdminLoans.searchTerm := "";
     AdminLoans.toasts := [] |}.

(** A pending row of the verifier dashboard. *)
Definition dashboardLoan : VerifierDashboard.Loan :=
  {| VerifierDashboard.id := "loan-2";
     VerifierDashboard.user :=
       {| VerifierDashboard.User.id := "u1";
          VerifierDashboard.User.name := "Asha Rao" |};
     VerifierDashboard.amount := 40000;
     VerifierDashboard.date := "February 01, 2025";
     VerifierDashboard.status := pending;
     VerifierDashboard.reason := "School fees" |}.

Definition dashboardState : VerifierDashboard.State :=
  {| VerifierDashboard.loans := [dashboardLoan];
     VerifierDashboard.toasts := [] |}.

(** A borrower as [handleAddBorrower] stores one registered without a
    phone number: [phone: newUser.phone || 'Not provided']. *)
Definition noPhoneBorrower : AdminBorrowers.Borrower :=
  {| AdminBorrowers._id := "u1";
     AdminBorrowers.name := "Asha Rao";
     AdminBorrowers.email := "asha@example.com";
     AdminBorrowers.phone := "Not provided";
     AdminBorrowers.status := AdminBorrowers.active;
     AdminBorrowers.loans := 0;
     AdminBorrowers.totalBorrowed := 0;
     AdminBorrowers.lastActivity := "2025-02-01T00:00:00.000Z" |}.

Definition otherBorrower : AdminBorrowers.Borrower :=
  {| AdminBorrowers._id := "u2";
     AdminBorrowers.name := "Binod K";
     AdminBorrowers.email := "binod@example.com";
     AdminBorrowers.phone := "9800000000";
     AdminBorrowers.status := AdminBorrowers.inactive;
     AdminBorrowers.loans := 2;
     AdminBorrowers.totalBorrowed := 90000;
     AdminBorrowers.lastActivity := "2025-01-15T00:00:00.000Z" |}.

Definition adminBorrowersState : AdminBorrowers.State :=
  {| AdminBorrowers.borrowers := [noPhoneBorrower; otherBorrower];
     AdminBorrowers.searchTerm := "";
     AdminBorrowers.toasts := [] |}.

Definition applicant : VerifierBorrowers.Borrower :=
  {| VerifierBorrowers._id := "u3";
     VerifierBorrowers.name := "Chandra P";
     VerifierBorrowers.email := "chandra@example.com";
     VerifierBorrowers.phone := "9811111111";
     VerifierBorrowers.status := VerifierBorrowers.pending;
     VerifierBorrowers.dateApplied := "2025-03-01";
     VerifierBorrowers.documents := ["id-card"%string] |}.

Definition verifierBorrowersState : VerifierBorrowers.State :=
  {| VerifierBorrowers.borrowers := [applicant];
     VerifierBorrowers.searchTerm := "";
     VerifierBorrowers.toasts := [] |}.

End Samples.

(** ** Vocabulary of the statements *)

(** [t] is a substring of [s]: [s] is some text, then [t], then some text. *)
Definition occursIn (t s : string) : Prop :=
  ∃ before after : string, s = String.append before (String.append t after).

(** A percentage cell is guarded when it divides, if at all, by a positive
    number. *)
Definition wellGuarded (p : Percent) : Prop :=
  match p with
  | Zero => True
  | Fixed1 _ den => 0 < den
  end.

(** ** Further page logic *)

(** *** The pager under each table

    The range label [{indexOfFirstItem + 1}-{Math.min(indexOfLastItem,
    rows.length)} of {rows.length}] and the two chevron buttons. The pager
    is rendered only when [Pagination.pagerShown] holds; the definitions
    below are the label and the click handlers of a rendered pager. *)

Module Pager.

Section Controls.
Context {A : Type}.
Variable rows : list A.
Variable currentPage : Z.

Definition rangeStart : Z := Pagination.indexOfFirstItem currentPage + 1.
Definition rangeEnd : Z :=
  Z.min (Pagination.indexOfLastItem currentPage) (Z.of_nat (length rows)).

(** [onClick={() => setCurrentPage(currentPage - 1)}]; a disabled button
    does not fire. *)
Definition clickPrev : Z :=
  if Pagination.prevDisabled currentPage then currentPage
  else currentPage - 1.

(** [onClick={() => setCurrentPage(currentPage + 1)}]. *)
Definition clickNext : Z :=
  if Pagination.nextDisabled rows currentPage then currentPage
  else currentPage + 1.
End Controls.

End Pager.

(** *** The tabs of the admin loans page *)

Module AdminLoansTabs.

(** The [value] of each [TabsTrigger] / [TabsContent]. *)
Inductive Tab :=
  | TabAll | TabPending | TabVerified | TabApproved | TabDisbursed
  | TabRepaying | TabCompleted | TabDefaulted.

(** The triggers, in rendering order. *)
Definition tabs : list Tab :=
  [TabAll; TabPending; TabVerified; TabApproved; TabDisbursed; TabRepaying;
   TabCompleted; TabDefaulted].

Definition hasStatus (s : LoanStatus) (l : AdminLoans.Loan) : bool :=
  bool_decide (AdminLoans.status l = s).

(** The [loans] prop handed to the [LoanTable] of a tab. *)
Definition tabLoans (tab : Tab) (filteredLoans : list AdminLoans.Loan)
    : list AdminLoans.Loan :=
  match tab with
  | TabAll => filteredLoans
  | TabPending => List.filter (hasStatus pending) filteredLoans
  | TabVerified => List.filter (hasStatus verified) filteredLoans
  | TabApproved => List.filter (hasStatus approved) filteredLoans
  | TabDisbursed => List.filter (hasStatus disbursed) filteredLoans
  | TabRepaying => List.filter (hasStatus repaying) filteredLoans
  | TabCompleted => List.filter (hasStatus completed) filteredLoans
  | TabDefaulted => List.filter (hasStatus defaulted) filteredLoans
  end.

End AdminLoansTabs.

(** *** Outcome of an awaited [api.post]

    The promise resolves with the created entity ([response.data.loan],
    [response.data.user]) or rejects with an optional message. *)
Inductive PostResult (A : Type) :=
  | Created (payload : A)
  | PostRejected (message : option string).
Arguments Created {A} payload.
Arguments PostRejected {A} message.

(** [!s] on a string: only the empty string is falsy. *)
Definition isBlank (s : string) : bool :=
  match s with
  | EmptyString => true
  | String _ _ => false
  end.

(** *** The "Add Loan" dialog of the admin loans page *)

Module AdminLoansDialog.

(** [interface NewLoan]: the form fields, all text. *)
Record NewLoan := {
  userId : string;
  amount : string;
  interestRate : string;
  tenure : string;
  reason : string;
  employmentStatus : string;
  employerName : string;
  employerAddress : string
}.

(** The initial value of the form, and the value it is reset to. *)
Definition blankForm : NewLoan :=
  {| userId := "";
     amount := "";
     interestRate := "15";
     tenure := "";
     reason := "";
     employmentStatus := "Employed";
     employerName := "";
     employerAddress := "" |}.

(** The page store together with the dialog's own state. *)
Record State := {
  page : AdminLoans.State;
  newLoan : NewLoan;
  isAddLoanOpen : bool
}.

(** The guard at the top of [handleAddLoan]. *)
Definition incomplete (f : NewLoan) : bool :=
  isBlank (userId f) || isBlank (amount f) || isBlank (interestRate f)
  || isBlank (tenure f) || isBlank (reason f).

Definition addToast (t : Toast) (p : AdminLoans.State) : AdminLoans.State :=
  {| AdminLoans.loans := AdminLoans.loans p;
     AdminLoans.searchTerm := AdminLoans.searchTerm p;
     AdminLoans.toasts := AdminLoans.toasts p ++ [t] |}.

(** [handleAddLoan]. The request is sent only past the guard; its outcome
    is [api]. *)
Definition handleAddLoan (api : PostResult AdminLoans.Loan) (st : State)
    : State :=
  if incomplete (newLoan st) then
    {| page :=
         addToast
           {| variant := Some "destructive"%string;
              title := "Error";
              description := "Please fill in all required fields" |}
           (page st);
       newLoan := newLoan st;
       isAddLoanOpen := isAddLoanOpen st |}
  else
    match api with
    | Created loan =>
        {| page :=
             {| AdminLoans.loans := loan :: AdminLoans.loans (page st);
                AdminLoans.searchTerm := AdminLoans.searchTerm (page st);
                AdminLoans.toasts :=
                  AdminLoans.toasts (page st) ++
                  [ {| variant := None;
                       title := "Loan Added";
                       description :=
                         "A new loan has been created successfully" |} ] |};
           newLoan := blankForm;
           isAddLoanOpen := false |}
    | PostRejected message =>
        {| page :=
             addToast
               {| variant := Some "destructive"%string;
                  title := "Failed to add loan";
                  description :=
                    Js.orElse message
                      "There was an error creating the loan." |}
               (page st);
           newLoan := newLoan st;
           isAddLoanOpen := isAddLoanOpen st |}
    end.

End AdminLoansDialog.

(** *** The "Add Borrower" dialog of the admin borrowers page *)

Module AdminBorrowersDialog.

(** The form: [newBorrower]. *)
Record NewBorrower := {
  name : string;
  email : string;
  phone : string;
  password : string
}.

Definition blankForm : NewBorrower :=
  {| name := ""; email := ""; phone := ""; password := "" |}.

(** [response.data.user] of the registration call. *)
Module Registered.
Record t := {
  _id : string;
  name : string;
  email : string;
  phone : option string
}.
End Registered.

Record State := {
  page : AdminBorrowers.State;
  newBorrower : NewBorrower;
  isAddBorrowerOpen : bool
}.

Definition incomplete (f : NewBorrower) : bool :=
  isBlank (name f) || isBlank (email f) || isBlank (password f).

Definition addToast (t : Toast) (p : AdminBorrowers.State)
    : AdminBorrowers.State :=
  {| AdminBorrowers.borrowers := AdminBorrowers.borrowers p;
     AdminBorrowers.searchTerm := AdminBorrowers.searchTerm p;
     AdminBorrowers.toasts := AdminBorrowers.toasts p ++ [t] |}.

(** The row built from the registered user. *)
Definition borrowerOf (now : string) (newUser : Registered.t)
    : AdminBorrowers.Borrower :=
  {| AdminBorrowers._id := Registered._id newUser;
     AdminBorrowers.name := Registered.name newUser;
     AdminBorrowers.email := Registered.email newUser;
     AdminBorrowers.phone :=
       Js.orElse (Registered.phone newUser) "Not provided";
     AdminBorrowers.status := AdminBorrowers.active;
     AdminBorrowers.loans := 0;
     AdminBorrowers.totalBorrowed := 0;
     AdminBorrowers.lastActivity := now |}.

(** [handleAddBorrower]; [now] is [new Date().toISOString()]. *)
Definition handleAddBorrower (now : string) (api : PostResult Registered.t)
    (st : State) : State :=
  if incomplete (newBorrower st) then
    {| page :=
         addToast
           {| variant := Some "destructive"%string;
              title := "Error";
              description :=
                "Please fill in all required fields (name, email, and password)"
           |}
           (page st);
       newBorrower := newBorrower st;
       isAddBorrowerOpen := isAddBorrowerOpen st |}
  else
    match api with
    | Created newUser =>
        {| page :=
             {| AdminBorrowers.borrowers :=
                  AdminBorrowers.borrowers (page st)
                  ++ [borrowerOf now newUser];
                AdminBorrowers.searchTerm :=
                  AdminBorrowers.searchTerm (page st);
                AdminBorrowers.toasts :=
                  AdminBorrowers.toasts (page st) ++
                  [ {| variant := None;
                       title := "Borrower Added";
                       description :=
                         String.append (name (newBorrower st))
                           " has been added as a borrower" |} ] |};
           newBorrower := blankForm;
           isAddBorrowerOpen := false |}
    | PostRejected message =>
        {| page :=
             addToast
               {| variant := Some "destructive"%string;
                  title := "Failed to add borrower";
                  description :=
                    Js.orElse message
                      "There was an error creating the borrower." |}
               (page st);
           newBorrower := newBorrower st;
           isAddBorrowerOpen := isAddBorrowerOpen st |}
    end.

End AdminBorrowersDialog.

(** *** User management page ([ManageUsers]) *)

Module ManageUsers.

(** The text of a role, as [role.toLowerCase()] and the toasts read it. *)
Definition roleString (r : UserRole) : string :=
  match r with
  | admin => "admin"
  | verifier => "verifier"
  | user => "user"
  end.

(** [interface User]. *)
Record User := {
  id : string;
  name : string;
  email : string;
  role : UserRole;
  createdAt : string
}.

(** The form of the "Add Admin" dialog. *)
Module NewUser.
Record t := {
  name : string;
  email : string;
  password : string;
  role : UserRole
}.
End NewUser.

(** [response.data.user] of the privileged registration call. *)
Module CreatedUser.
Record t := {
  id : string;
  name : string;
  email : string;
  role : UserRole
}.
End CreatedUser.

Record State := {
  users : list User;
  filteredUsers : list User;
  searchTerm : string;
  isAddUserOpen : bool;
  newUser : NewUser.t;
  toasts : list Toast
}.

Definition blankForm : NewUser.t :=
  {| NewUser.name := "";
     NewUser.email := "";
     NewUser.password := "";
     NewUser.role := admin |}.

(** The callback of [users.filter] in the search effect. *)
Definition matchesSearch (term : string) (u : User) : bool :=
  Js.includes (Js.toLowerCase (name u)) (Js.toLowerCase term)
  || Js.includes (Js.toLowerCase (email u)) (Js.toLowerCase term)
  || Js.includes (Js.toLowerCase (roleString (role u))) (Js.toLowerCase term).

(** The effect on [[searchTerm, users]]: it runs after every render in
    which one of the two changed and refreshes [filteredUsers]. *)
Definition filterEffect (st : State) : State :=
  {| users := users st;
     filteredUsers := List.filter (matchesSearch (searchTerm st)) (users st);
     searchTerm := searchTerm st;
     isAddUserOpen := isAddUserOpen st;
     newUser := newUser st;
     toasts := toasts st |}.

Definition setUsers (us : list User) (t : Toast) (st : State) : State :=
  {| users := us;
     filteredUsers := filteredUsers st;
     searchTerm := searchTerm st;
     isAddUserOpen := isAddUserOpen st;
     newUser := newUser st;
     toasts := toasts st ++ [t] |}.

Definition addToast (t : Toast) (st : State) : State :=
  setUsers (users st) t st.

Definition errorToast (text : string) : Toast :=
  {| variant := Some "destructive"%string;
     title := "Error";
     description := text |}.

Definition incomplete (f : NewUser.t) : bool :=
  isBlank (NewUser.name f) || isBlank (NewUser.email f)
  || isBlank (NewUser.password f).

(** [handleAddUser]; [today] is [new Date().toISOString().split("T")[0]]. *)
Definition handleAddUser (today : string) (api : PostResult CreatedUser.t)
    (st : State) : State :=
  if incomplete (newUser st) then
    addToast (errorToast "Please fill in all required fields") st
  else
    match api with
    | Created createdUser =>
        {| users :=
             users st
             ++ [ {| id := CreatedUser.id createdUser;
                     name := CreatedUser.name createdUser;
                     email := CreatedUser.email createdUser;
                     role := CreatedUser.role createdUser;
                     createdAt := today |} ];
           filteredUsers := filteredUsers st;
           searchTerm := searchTerm st;
           isAddUserOpen := false;
           newUser := blankForm;
           toasts := toasts st ++
             [ {| variant := None;
                  title := "User Added";
                  description :=
                    String.append (NewUser.name (newUser st))
                      (String.append " has been added as a "
                         (roleString (NewUser.role (newUser st)))) |} ] |}
    | PostRejected message =>
        addToast (errorToast (Js.orElse message "Failed to create user")) st
    end.

(** [handleDeleteUser]. *)
Definition handleDeleteUser (api : ApiResult) (st : State) (userId : string)
    : State :=
  match api with
  | Resolved =>
      setUsers
        (List.filter (fun u => negb (String.eqb (id u) userId)) (users st))
        {| variant := None;
           title := "User Deleted";
           description := "The user has been deleted successfully" |}
        st
  | Rejected message =>
      addToast (errorToast (Js.orElse message "Failed to delete user")) st
  end.

(** [{ ...user, role: newRole }]. *)
Definition withRole (newRole : UserRole) (u : User) : User :=
  {| id := id u;
     name := name u;
     email := email u;
     role := newRole;
     createdAt := createdAt u |}.

Definition updateOne (userId : string) (newRole : UserRole) (u : User)
    : User :=
  if String.eqb (id u) userId then withRole newRole u else u.

(** [handleUpdateRole]. *)
Definition handleUpdateRole (api : ApiResult) (st : State) (userId : string)
    (newRole : UserRole) : State :=
  match api with
  | Resolved =>
      setUsers (updateOne userId newRole <$> users st)
        {| variant := None;
           title := "Role Updated";
           description :=
             String.append "User role has been updated to "
               (roleString newRole) |}
        st
  | Rejected message =>
      addToast (errorToast (Js.orElse message "Failed to update user role")) st
  end.

(** [disabled={user.email === "admin@example.com"}] on the role selector
    and on the Delete button of a row. *)
Definition rowDisabled (u : User) : bool :=
  String.eqb (email u) "admin@example.com".

(** One use of an enabled control of a rendered row, followed by the render
    and its search effect. The outcome [api] of the request is free. *)
Inductive tableClick (st : State) : State -> Prop :=
  | ClickDelete (u : User) (api : ApiResult) :
      In u (filteredUsers st) ->
      rowDisabled u = false ->
      tableClick st (filterEffect (handleDeleteUser api st (id u)))
  | SelectRole (u : User) (newRole : UserRole) (api : ApiResult) :
      In u (filteredUsers st) ->
      rowDisabled u = false ->
      tableClick st (filterEffect (handleUpdateRole api st (id u) newRole)).

(** [<ProtectedRoute allowedRoles={["admin"]}>]. *)
Definition allowedRoles : list UserRole := [admin].

End ManageUsers.

(** *** The status buttons as a relation *)

(** The admin table offers a button from [s] to [t]. *)
Definition adminOffers (s t : LoanStatus) : Prop :=
  In t (AdminLoans.rowActions s).

(** Position of a status along the lifecycle, used to measure progress. *)
Definition stage (s : LoanStatus) : Z :=
  match s with
  | pending => 0
  | verified => 1
  | approved => 2
  | disbursed => 3
  | repaying => 4
  | completed => 5
  | defaulted => 5
  | rejected => 5
  end.

(** *** The dashboard handler over any status type

    [handleStatusChange] takes [newStatus : Loan["status"]], a type that
    the dashboard's table component declares. The handler never inspects
    the value, so it is given here with the status type, and the text that
    the template literal of the toast prints for a status, as
    parameters. *)

Module DashboardHandler.

Module User.
Record t := { id : string; name : string }.
End User.

Section AnyStatus.
Variable Status : Type.
Variable statusText : Status -> string.

(** The row built by [formattedLoans]. *)
Record Loan := {
  id : string;
  user : User.t;
  amount : Z;
  date : string;
  status : Status;
  reason : string
}.

Record State := {
  loans : list Loan;
  toasts : list Toast
}.

(** [{ ...loan, status: newStatus }]. *)
Definition withStatus (newStatus : Status) (loan : Loan) : Loan :=
  {| id := id loan;
     user := user loan;
     amount := amount loan;
     date := date loan;
     status := newStatus;
     reason := reason loan |}.

Definition updateOne (loanId : string) (newStatus : Status) (loan : Loan)
    : Loan :=
  if String.eqb (id loan) loanId then withStatus newStatus loan else loan.

(** [handleStatusChange]. *)
Definition handleStatusChange (api : ApiResult) (st : State)
    (loanId : string) (newStatus : Status) : State :=
  match api with
  | Resolved =>
      {| loans := updateOne loanId newStatus <$> loans st;
         toasts := toasts st ++
           [ {| variant := None;
                title := "Status Updated";
                description :=
                  String.append "Loan status has been updated to "
                    (statusText newStatus) |} ] |}
  | Rejected message =>
      {| loans := loans st;
         toasts := toasts st ++
           [ {| variant := Some "destructive"%string;
                title := "Failed to update status";
                description :=
                  Js.orElse message
                    "There was an error updating the loan status." |} ] |}
  end.
End AnyStatus.

Arguments id {Status} _.
Arguments status {Status} _.
Arguments loans {Status} _.
Arguments toasts {Status} _.
Arguments withStatus {Status} _ _.
Arguments updateOne {Status} _ _ _.
Arguments handleStatusChange {Status} _ _ _ _ _.

End DashboardHandler.

(** *** Requests that overlap

    A status handler is a closure of the render in which the button was
    clicked: when its PATCH resolves it calls [setLoans(loans.map(...))]
    with the [loans] of that render, whatever the store holds by then.
    [captured] is that list and [current] the store at resolution; the
    handlers above are the case where the two agree. *)

Module AdminLoansLater.

Definition resolveLater (captured : list AdminLoans.Loan)
    (current : AdminLoans.State) (loanId : string) (newStatus : LoanStatus)
    : AdminLoans.State :=
  {| AdminLoans.loans := AdminLoans.updateOne loanId newStatus <$> captured;
     AdminLoans.searchTerm := AdminLoans.searchTerm current;
     AdminLoans.toasts := AdminLoans.toasts current ++
       [ {| variant := None;
            title := "Status Updated";
            description :=
              String.append "Loan status has been updated to "
                (Js.toUpperCase (statusString newStatus)) |} ] |}.

End AdminLoansLater.

Module AdminBorrowersLater.

Definition resolveLater (captured : list AdminBorrowers.Borrower)
    (current : AdminBorrowers.State) (borrowerId : string)
    (newStatus : AdminBorrowers.Status) : AdminBorrowers.State :=
  {| AdminBorrowers.borrowers :=
       AdminBorrowers.updateOne borrowerId newStatus <$> captured;
     AdminBorrowers.searchTerm := AdminBorrowers.searchTerm current;
     AdminBorrowers.toasts := AdminBorrowers.toasts current ++
       [ {| variant := None;
            title := "Status Updated";
            description :=
              String.append "Borrower status has been updated to "
                (AdminBorrowers.statusString newStatus) |} ] |}.

End AdminBorrowersLater.

(** [Number.MAX_SAFE_INTEGER]: up to it every integer is a double, and a
    sum of integers that stays below it is added without rounding. *)
Definition maxSafeInteger : Z := 2 ^ 53 - 1.

(** ** More sample data *)

Module MoreSamples.

Definition mainAdmin : ManageUsers.User :=
  {| ManageUsers.id := "a1";
     ManageUsers.name := "Root";
     ManageUsers.email := "admin@example.com";
     ManageUsers.role := admin;
     ManageUsers.createdAt := "2025-01-01" |}.

Definition clerk : ManageUsers.User :=
  {| ManageUsers.id := "v1";
     ManageUsers.name := "Vera";
     ManageUsers.email := "vera@example.com";
     ManageUsers.role := verifier;
     ManageUsers.createdAt := "2025-01-05" |}.

Definition usersState : ManageUsers.State :=
  {| ManageUsers.users := [mainAdmin; clerk];
     ManageUsers.filteredUsers := [mainAdmin; clerk];
     ManageUsers.searchTerm := "";
     ManageUsers.isAddUserOpen := false;
     ManageUsers.newUser := ManageUsers.blankForm;
     ManageUsers.toasts := [] |}.

Definition sevenRows : list Z := [1; 2; 3; 4; 5; 6; 7].

(** The Add Loan dialog, filled in. *)
Definition filledLoanDialog : AdminLoansDialog.State :=
  {| AdminLoansDialog.page := Samples.adminLoansState;
     AdminLoansDialog.newLoan :=
       {| AdminLoansDialog.userId := "u1";
          AdminLoansDialog.amount := "5000";
          AdminLoansDialog.interestRate := "15";
          AdminLoansDialog.tenure := "6";
          AdminLoansDialog.reason := "Tools";
          AdminLoansDialog.employmentStatus := "Employed";
          AdminLoansDialog.employerName := "";
          AdminLoansDialog.employerAddress := "" |};
     AdminLoansDialog.isAddLoanOpen := true |}.

(** The Add Borrower dialog, filled in without a phone number. *)
Definition filledBorrowerDialog : AdminBorrowersDialog.State :=
  {| AdminBorrowersDialog.page := Samples.adminBorrowersState;
     AdminBorrowersDialog.newBorrower :=
       {| AdminBorrowersDialog.name := "Dipa";
          AdminBorrowersDialog.email := "dipa@example.com";
          AdminBorrowersDialog.phone := "";
          AdminBorrowersDialog.password := "secret" |};
     AdminBorrowersDialog.isAddBorrowerOpen := true |}.

Definition registeredDipa : AdminBorrowersDialog.Registered.t :=
  {| AdminBorrowersDialog.Registered._id := "u4";
     AdminBorrowersDialog.Registered.name := "Dipa";
     AdminBorrowersDialog.Registered.email := "dipa@example.com";
     AdminBorrowersDialog.Registered.phone := None |}.

(** A loan that has been paid out. *)
Definition disbursedLoan : AdminLoans.Loan :=
  {| AdminLoans._id := "loan-3";
     AdminLoans.user := Samples.asha;
     AdminLoans.amount := 60000;
     AdminLoans.interestRate := 15;
     AdminLoans.tenure := 12;
     AdminLoans.applicationDate := "2024-11-20";
     AdminLoans.disbursementDate := Some "2024-12-01"%string;
     AdminLoans.status := disbursed;
     AdminLoans.reason := "Workshop";
     AdminLoans.amountPaid := 5000;
     AdminLoans.totalAmountPayable := 69000 |}.





End MoreSamples.

(** * Properties *)

(** ** Status buttons and roles *)

Lemma admin_targets s : allowedTargets admin s = AdminLoans.rowActions s.
Proof. unfold allowedTargets; cbn. by rewrite app_nil_r. Qed.

Lemma verifier_targets s :
  allowedTargets verifier s = pageTargets verifierLoansPage s.
Proof. unfold allowedTargets; cbn. by rewrite app_nil_r. Qed.

Lemma user_targets s : allowedTargets user s = [].
Proof. reflexivity. Qed.

(** C1. From each of the terminal statuses completed, defaulted and
    rejected, no page offers any role a status button: the set of allowed
    targets is empty, so no status change can be triggered. *)
Theorem terminal_statuses_offer_nothing :
  ∀ role : UserRole,
    allowedTargets role completed = []
    ∧ allowedTargets role defaulted = []
    ∧ allowedTargets role rejected = [].
Proof. intros []; repeat split; reflexivity. Qed.

(** C4, as stated, fails: an admin is not offered [approved] on a pending
    loan. *)
Lemma admin_pending_approved_not_offered :
  ¬ (∀ target : LoanStatus,
       target ∈ [verified; approved; rejected] →
       target ∈ allowedTargets admin pending).
Proof.
  intros H. specialize (H approved).
  assert (Hin : approved ∈ [verified; approved; rejected])
    by (apply list_elem_of_In; cbn; tauto).
  apply H, list_elem_of_In in Hin. rewrite admin_targets in Hin.
  compute in Hin. intuition discriminate.
Qed.

(** C4, amended. On a pending loan the admin page offers exactly two
    targets, verified and rejected; approval is offered on a verified
    loan. *)
Theorem admin_pending_targets :
  allowedTargets admin pending = [verified; rejected]
  ∧ allowedTargets admin verified = [approved; rejected]
  ∧ ∀ s : LoanStatus, approved ∈ allowedTargets admin s → s = verified.
Proof.
  split; [reflexivity|]. split; [reflexivity|].
  intros s Hin. apply list_elem_of_In in Hin.
  destruct s; compute in Hin; intuition discriminate.
Qed.

(** ** Optimistic status updates

    The four handlers share the shape [rows.map(r => r.id === X ? f(r) : r)];
    its properties are proved once. *)

Section MapById.
Context {A : Type}.
Variable getId : A → string.
Variable change : A → A.
Variable X : string.
Hypothesis change_keeps_id : ∀ r, getId (change r) = getId r.

#[local] Abbreviation update := (mapById getId change X).

Lemma mapById_hit r : getId r = X → update r = change r.
Proof. intros He. unfold mapById. by rewrite He, String.eqb_refl. Qed.

Lemma mapById_miss r : getId r ≠ X → update r = r.
Proof.
  intros Hne. unfold mapById.
  destruct (String.eqb_spec (getId r) X); [contradiction | done].
Qed.

Lemma mapById_id r : getId (update r) = getId r.
Proof. unfold mapById. destruct (String.eqb _ _); auto. Qed.

Lemma mapById_length (rows : list A) :
  length (update <$> rows) = length rows.
Proof. apply length_fmap. Qed.

Lemma mapById_ids (rows : list A) :
  getId <$> (update <$> rows) = getId <$> rows.
Proof.
  induction rows as [|r rows IH]; [done|].
  cbn. by rewrite mapById_id, IH.
Qed.

Lemma mapById_lookup_miss (rows : list A) i r :
  rows !! i = Some r → getId r ≠ X → (update <$> rows) !! i = Some r.
Proof.
  intros Hi Hne. rewrite list_lookup_fmap, Hi. cbn.
  by rewrite mapById_miss.
Qed.

Lemma mapById_lookup_hit (rows : list A) i r :
  rows !! i = Some r → getId r = X →
  (update <$> rows) !! i = Some (change r).
Proof.
  intros Hi He. rewrite list_lookup_fmap, Hi. cbn.
  by rewrite mapById_hit.
Qed.
End MapById.

(** The per-page callbacks are instances of [mapById]. *)
Lemma admin_loans_updateOne X s :
  AdminLoans.updateOne X s = mapById AdminLoans._id (AdminLoans.withStatus s) X.
Proof. reflexivity. Qed.

Lemma admin_borrowers_updateOne X s :
  AdminBorrowers.updateOne X s
  = mapById AdminBorrowers._id (AdminBorrowers.withStatus s) X.
Proof. reflexivity. Qed.

Lemma verifier_borrowers_updateOne X s :
  VerifierBorrowers.updateOne X s
  = mapById VerifierBorrowers._id (VerifierBorrowers.withStatus s) X.
Proof. reflexivity. Qed.

Lemma verifier_loans_updateOne X s :
  VerifierLoans.updateOne X s
  = mapById VerifierLoans._id (VerifierLoans.withStatus s) X.
Proof. reflexivity. Qed.

Lemma dashboard_updateOne X s :
  VerifierDashboard.updateOne X s
  = mapById VerifierDashboard.id (VerifierDashboard.withStatus s) X.
Proof. reflexivity. Qed.

(** C2, as stated, fails: disbursing an approved loan whose
    [disbursementDate] is unset leaves the date unset. *)
Lemma disbursal_does_not_stamp_date :
  ¬ (∀ (st : AdminLoans.State) (loanId : string) (i : nat)
       (loan : AdminLoans.Loan),
       AdminLoans.loans st !! i = Some loan →
       AdminLoans._id loan = loanId →
       AdminLoans.status loan = approved →
       AdminLoans.disbursementDate loan = None →
       ∃ (loan' : AdminLoans.Loan) (now : string),
         AdminLoans.loans
           (AdminLoans.handleUpdateStatus Resolved st loanId disbursed) !! i
         = Some loan'
         ∧ AdminLoans.status loan' = disbursed
         ∧ AdminLoans.disbursementDate loan' = Some now).
Proof.
  intros H.
  destruct (H Samples.adminLoansState "loan-1"%string 1%nat
              Samples.approvedLoan)
    as (loan' & now & Hl & _ & Hd); try reflexivity.
  cbn in Hl. injection Hl as <-. discriminate Hd.
Qed.

(** C2, amended. On an approved loan the admin page offers [disbursed];
    when the backend accepts the request the row has status disbursed and
    every other field, [disbursementDate] included, is as before: the
    handler writes no date. *)
Theorem admin_disburse_sets_status_only :
  ∀ (st : AdminLoans.State) (loanId : string) (i : nat)
    (loan : AdminLoans.Loan),
    AdminLoans.loans st !! i = Some loan →
    AdminLoans._id loan = loanId →
    AdminLoans.status loan = approved →
    disbursed ∈ allowedTargets admin (AdminLoans.status loan)
    ∧ ∃ loan' : AdminLoans.Loan,
        AdminLoans.loans
          (AdminLoans.handleUpdateStatus Resolved st loanId disbursed) !! i
        = Some loan'
        ∧ AdminLoans.status loan' = disbursed
        ∧ AdminLoans.disbursementDate loan' = AdminLoans.disbursementDate loan
        ∧ loan' = AdminLoans.withStatus disbursed loan.
Proof.
  intros st loanId i loan Hi Hid Hs. split.
  - rewrite Hs, admin_targets. apply list_elem_of_In. compute. tauto.
  - exists (AdminLoans.withStatus disbursed loan). repeat split.
    cbn. rewrite admin_loans_updateOne.
    by apply mapById_lookup_hit.
Qed.

Lemma admin_disburse_sets_status_only_witness :
  disbursed ∈ allowedTargets admin (AdminLoans.status Samples.approvedLoan)
  ∧ ∃ loan' : AdminLoans.Loan,
      AdminLoans.loans
        (AdminLoans.handleUpdateStatus Resolved Samples.adminLoansState
           "loan-1" disbursed) !! 1%nat
      = Some loan'
      ∧ AdminLoans.status loan' = disbursed
      ∧ AdminLoans.disbursementDate loan'
        = AdminLoans.disbursementDate Samples.approvedLoan
      ∧ loan' = AdminLoans.withStatus disbursed Samples.approvedLoan.
Proof.
  apply (admin_disburse_sets_status_only Samples.adminLoansState
           "loan-1" 1 Samples.approvedLoan); reflexivity.
Defined.





(** C5. After a successful status update, a row whose identifier matches
    is the input row with [status] replaced by the requested status: every
    other field keeps its value (no field is excepted, the disbursal date
    included). Stated for the admin loans and admin borrowers pages. *)
Theorem status_update_changes_status_only :
  (∀ (st : AdminLoans.State) (loanId : string) (newStatus : LoanStatus)
     (i : nat) (loan : AdminLoans.Loan),
     AdminLoans.loans st !! i = Some loan →
     AdminLoans._id loan = loanId →
     ∃ loan' : AdminLoans.Loan,
       AdminLoans.loans
         (AdminLoans.handleUpdateStatus Resolved st loanId newStatus) !! i
       = Some loan'
       ∧ AdminLoans.status loan' = newStatus
       ∧ AdminLoans._id loan' = AdminLoans._id loan
       ∧ AdminLoans.user loan' = AdminLoans.user loan
       ∧ AdminLoans.amount loan' = AdminLoans.amount loan
       ∧ AdminLoans.interestRate loan' = AdminLoans.interestRate loan
       ∧ AdminLoans.tenure loan' = AdminLoans.tenure loan
       ∧ AdminLoans.applicationDate loan' = AdminLoans.applicationDate loan
       ∧ AdminLoans.disbursementDate loan' = AdminLoans.disbursementDate loan
       ∧ AdminLoans.reason loan' = AdminLoans.reason loan
       ∧ AdminLoans.amountPaid loan' = AdminLoans.amountPaid loan
       ∧ AdminLoans.totalAmountPayable loan'
         = AdminLoans.totalAmountPayable loan)
  ∧ (∀ (st : AdminBorrowers.State) (borrowerId : string)
       (newStatus : AdminBorrowers.Status) (i : nat)
       (b : AdminBorrowers.Borrower),
       AdminBorrowers.borrowers st !! i = Some b →
       AdminBorrowers._id b = borrowerId →
       ∃ b' : AdminBorrowers.Borrower,
         AdminBorrowers.borrowers
           (AdminBorrowers.handleUpdateStatus Resolved st borrowerId
              newStatus) !! i
         = Some b'
         ∧ AdminBorrowers.status b' = newStatus
         ∧ AdminBorrowers._id b' = AdminBorrowers._id b
         ∧ AdminBorrowers.name b' = AdminBorrowers.name b
         ∧ AdminBorrowers.email b' = AdminBorrowers.email b
         ∧ AdminBorrowers.phone b' = AdminBorrowers.phone b
         ∧ AdminBorrowers.loans b' = AdminBorrowers.loans b
         ∧ AdminBorrowers.totalBorrowed b' = AdminBorrowers.totalBorrowed b
         ∧ AdminBorrowers.lastActivity b' = AdminBorrowers.lastActivity b).
Proof.
  split.
  - intros st loanId newStatus i loan Hi Hid.
    exists (AdminLoans.withStatus newStatus loan).
    split; [|by repeat split].
    cbn. rewrite admin_loans_updateOne. by apply mapById_lookup_hit.
  - intros st borrowerId newStatus i b Hi Hid.
    exists (AdminBorrowers.withStatus newStatus b).
    split; [|by repeat split].
    cbn. rewrite admin_borrowers_updateOne. by apply mapById_lookup_hit.
Qed.

Lemma status_update_changes_status_only_witness :
  (∃ loan' : AdminLoans.Loan,
     AdminLoans.loans
       (AdminLoans.handleUpdateStatus Resolved Samples.adminLoansState
          "loan-2" verified) !! 0%nat
     = Some loan'
     ∧ AdminLoans.status loan' = verified
     ∧ AdminLoans.reason loan' = "School fees"%string)
  ∧ (∃ b' : AdminBorrowers.Borrower,
       AdminBorrowers.borrowers
         (AdminBorrowers.handleUpdateStatus Resolved
            Samples.adminBorrowersState "u2" AdminBorrowers.blacklisted)
         !! 1%nat
       = Some b'
       ∧ AdminBorrowers.status b' = AdminBorrowers.blacklisted
       ∧ AdminBorrowers.phone b' = "9800000000"%string).
Proof.
  split.
  - destruct (proj1 status_update_changes_status_only
                Samples.adminLoansState "loan-2"%string verified 0%nat
                Samples.pendingLoan eq_refl eq_refl)
      as (loan' & Hl & Hs & H).
    exists loan'. split; [exact Hl|]. split; [exact Hs|].
    destruct H as (_ & _ & _ & _ & _ & _ & _ & Hr & _). exact Hr.
  - destruct (proj2 status_update_changes_status_only
                Samples.adminBorrowersState "u2"%string
                AdminBorrowers.blacklisted 1%nat Samples.otherBorrower
                eq_refl eq_refl)
      as (b' & Hl & Hs & H).
    exists b'. split; [exact Hl|]. split; [exact Hs|].
    destruct H as (_ & _ & _ & Hp & _). exact Hp.
Defined.

(** C10. A successful status update for identifier X keeps the length of
    the collection and the order of its identifiers, leaves every record
    with another identifier as it was, and gives the records with
    identifier X the new status. Stated for the admin loans, admin
    borrowers and verifier borrowers pages. *)
Theorem status_update_frame :
  (∀ (st : AdminLoans.State) (X : string) (s : LoanStatus),
     let rows := AdminLoans.loans st in
     let rows' :=
       AdminLoans.loans (AdminLoans.handleUpdateStatus Resolved st X s) in
     length rows' = length rows
     ∧ AdminLoans._id <$> rows' = AdminLoans._id <$> rows
     ∧ ∀ (i : nat) (r : AdminLoans.Loan),
         rows !! i = Some r →
         (AdminLoans._id r ≠ X → rows' !! i = Some r)
         ∧ (AdminLoans._id r = X →
            ∃ r', rows' !! i = Some r' ∧ AdminLoans.status r' = s))
  ∧ (∀ (st : AdminBorrowers.State) (X : string) (s : AdminBorrowers.Status),
       let rows := AdminBorrowers.borrowers st in
       let rows' :=
         AdminBorrowers.borrowers
           (AdminBorrowers.handleUpdateStatus Resolved st X s) in
       length rows' = length rows
       ∧ AdminBorrowers._id <$> rows' = AdminBorrowers._id <$> rows
       ∧ ∀ (i : nat) (r : AdminBorrowers.Borrower),
           rows !! i = Some r →
           (AdminBorrowers._id r ≠ X → rows' !! i = Some r)
           ∧ (AdminBorrowers._id r = X →
              ∃ r', rows' !! i = Some r' ∧ AdminBorrowers.status r' = s))
  ∧ (∀ (st : VerifierBorrowers.State) (X : string)
       (s : VerifierBorrowers.Status),
       let rows := VerifierBorrowers.borrowers st in
       let rows' :=
         VerifierBorrowers.borrowers
           (VerifierBorrowers.handleUpdateStatus Resolved st X s) in
       length rows' = length rows
       ∧ VerifierBorrowers._id <$> rows' = VerifierBorrowers._id <$> rows
       ∧ ∀ (i : nat) (r : VerifierBorrowers.Borrower),
           rows !! i = Some r →
           (VerifierBorrowers._id r ≠ X → rows' !! i = Some r)
           ∧ (VerifierBorrowers._id r = X →
              ∃ r', rows' !! i = Some r' ∧ VerifierBorrowers.status r' = s)).
Proof.
  split; [|split]; intros st X s; cbn.
  - rewrite admin_loans_updateOne.
    split; [apply mapById_length|].
    split; [by apply mapById_ids|].
    intros i r Hi. split; intros Hid.
    + by apply mapById_lookup_miss.
    + exists (AdminLoans.withStatus s r).
      split; [by apply mapById_lookup_hit | done].
  - rewrite admin_borrowers_updateOne.
    split; [apply mapById_length|].
    split; [by apply mapById_ids|].
    intros i r Hi. split; intros Hid.
    + by apply mapById_lookup_miss.
    + exists (AdminBorrowers.withStatus s r).
      split; [by apply mapById_lookup_hit | done].
  - rewrite verifier_borrowers_updateOne.
    split; [apply mapById_length|].
    split; [by apply mapById_ids|].
    intros i r Hi. split; intros Hid.
    + by apply mapById_lookup_miss.
    + exists (VerifierBorrowers.withStatus s r).
      split; [by apply mapById_lookup_hit | done].
Qed.

Lemma status_update_frame_witness :
  AdminLoans.loans
    (AdminLoans.handleUpdateStatus Resolved Samples.adminLoansState
       "loan-1" disbursed) !! 0%nat
  = Some Samples.pendingLoan
  ∧ AdminBorrowers.borrowers
      (AdminBorrowers.handleUpdateStatus Resolved Samples.adminBorrowersState
         "u2" AdminBorrowers.active) !! 0%nat
    = Some Samples.noPhoneBorrower
  ∧ ∃ r',
      VerifierBorrowers.borrowers
        (VerifierBorrowers.handleUpdateStatus Resolved
           Samples.verifierBorrowersState "u3" VerifierBorrowers.verified)
        !! 0%nat
      = Some r'
      ∧ VerifierBorrowers.status r' = VerifierBorrowers.verified.
Proof.
  destruct status_update_frame as (Hloans & Hborrowers & Hverifier).
  split; [|split].
  - destruct (Hloans Samples.adminLoansState "loan-1"%string disbursed)
      as (_ & _ & Hrow).
    apply (Hrow 0%nat Samples.pendingLoan eq_refl). discriminate.
  - destruct (Hborrowers Samples.adminBorrowersState "u2"%string
                AdminBorrowers.active)
      as (_ & _ & Hrow).
    apply (Hrow 0%nat Samples.noPhoneBorrower eq_refl). discriminate.
  - destruct (Hverifier Samples.verifierBorrowersState "u3"%string
                VerifierBorrowers.verified)
      as (_ & _ & Hrow).
    apply (Hrow 0%nat Samples.applicant eq_refl). reflexivity.
Defined.

(** ** Search filters *)

Lemma startsWith_spec t : ∀ s,
  Js.startsWith s t = true ↔ ∃ rest, s = String.append t rest.
Proof.
  induction t as [|c t IH]; intros s.
  - destruct s; cbn; split; eauto.
  - destruct s as [|d s]; cbn.
    + split; [discriminate | intros [rest H]; discriminate].
    + rewrite andb_true_iff, IH. split.
      * intros [Hc [rest ->]]. apply Ascii.eqb_eq in Hc as ->. eauto.
      * intros [rest H]. injection H as -> ->.
        split; [apply Ascii.eqb_refl | eauto].
Qed.

Lemma includes_spec s : ∀ t, Js.includes s t = true ↔ occursIn t s.
Proof.
  unfold occursIn. induction s as [|d s IH]; intros t.
  - cbn [Js.includes]. rewrite orb_false_r, startsWith_spec. split.
    + intros [rest H]. exists EmptyString, rest. exact H.
    + intros (a & b & H). destruct a; [eauto | discriminate].
  - cbn [Js.includes]. rewrite orb_true_iff, startsWith_spec, IH. split.
    + intros [[rest H] | (a & b & H)].
      * exists EmptyString, rest. exact H.
      * exists (String d a), b. cbn. by rewrite H.
    + intros (a & b & H). destruct a as [|c a]; cbn in H.
      * left. eauto.
      * right. injection H as -> ->. eauto.
Qed.

Lemma includes_empty s : Js.includes s EmptyString = true.
Proof. apply includes_spec. exists EmptyString, s. reflexivity. Qed.

Section FilterFacts.
Context {A : Type}.
Variable keep : A → bool.

Lemma filter_keeps_all (l : list A) :
  (∀ x, keep x = true) → List.filter keep l = l.
Proof.
  intros Hall. induction l as [|x l IH]; [done|].
  cbn. by rewrite Hall, IH.
Qed.

Lemma filter_twice (l : list A) :
  List.filter keep (List.filter keep l) = List.filter keep l.
Proof.
  induction l as [|x l IH]; [done|].
  cbn. destruct (keep x) eqn:Hx; [|exact IH].
  cbn. by rewrite Hx, IH.
Qed.
End FilterFacts.

(** C6, as stated, fails: the phone number is compared as typed. The
    search term "not" does not find a borrower whose phone is
    "Not provided", although "not" occurs in the lower-cased phone. *)
Lemma phone_match_is_case_sensitive :
  ¬ (∀ (term : string) (b : AdminBorrowers.Borrower),
       AdminBorrowers.matchesSearch term b = true
       ↔ occursIn (Js.toLowerCase term)
           (Js.toLowerCase (AdminBorrowers.name b))
         ∨ occursIn (Js.toLowerCase term)
             (Js.toLowerCase (AdminBorrowers.email b))
         ∨ occursIn (Js.toLowerCase term)
             (Js.toLowerCase (AdminBorrowers.phone b))).
Proof.
  intros H.
  assert (Hm : AdminBorrowers.matchesSearch "not" Samples.noPhoneBorrower
               = true).
  { apply H. right. right.
    exists EmptyString, " provided"%string. reflexivity. }
  vm_compute in Hm. discriminate Hm.
Qed.

(** C6, amended. A borrower matches a search term exactly when the
    lower-cased term occurs in the lower-cased name or in the lower-cased
    email, or the term as typed occurs in the phone as stored. Stated for
    the admin and the verifier borrowers pages. *)
Theorem borrower_search_contract :
  (∀ (term : string) (b : AdminBorrowers.Borrower),
     AdminBorrowers.matchesSearch term b = true
     ↔ occursIn (Js.toLowerCase term) (Js.toLowerCase (AdminBorrowers.name b))
       ∨ occursIn (Js.toLowerCase term)
           (Js.toLowerCase (AdminBorrowers.email b))
       ∨ occursIn term (AdminBorrowers.phone b))
  ∧ (∀ (term : string) (b : VerifierBorrowers.Borrower),
       VerifierBorrowers.matchesSearch term b = true
       ↔ occursIn (Js.toLowerCase term)
           (Js.toLowerCase (VerifierBorrowers.name b))
         ∨ occursIn (Js.toLowerCase term)
             (Js.toLowerCase (VerifierBorrowers.email b))
         ∨ occursIn term (VerifierBorrowers.phone b)).
Proof.
  split; intros term b.
  - unfold AdminBorrowers.matchesSearch.
    rewrite !orb_true_iff, !includes_spec. tauto.
  - unfold VerifierBorrowers.matchesSearch.
    rewrite !orb_true_iff, !includes_spec. tauto.
Qed.

Lemma admin_loans_match_empty loan : AdminLoans.matchesSearch "" loan = true.
Proof. unfold AdminLoans.matchesSearch. cbn. by rewrite includes_empty. Qed.

Lemma verifier_loans_match_empty loan :
  VerifierLoans.matchesSearch "" loan = true.
Proof. unfold VerifierLoans.matchesSearch. cbn. by rewrite includes_empty. Qed.

Lemma admin_borrowers_match_empty b :
  AdminBorrowers.matchesSearch "" b = true.
Proof.
  unfold AdminBorrowers.matchesSearch. cbn. by rewrite includes_empty.
Qed.

Lemma verifier_borrowers_match_empty b :
  VerifierBorrowers.matchesSearch "" b = true.
Proof.
  unfold VerifierBorrowers.matchesSearch. cbn. by rewrite includes_empty.
Qed.

(** C9. On every page the search filter with the empty term returns the
    collection unchanged, and filtering twice with one term equals
    filtering once. *)
Theorem search_filter_identity_and_idempotence :
  (∀ ls, AdminLoans.filterLoans "" ls = ls)
  ∧ (∀ t ls,
       AdminLoans.filterLoans t (AdminLoans.filterLoans t ls)
       = AdminLoans.filterLoans t ls)
  ∧ (∀ bs, AdminBorrowers.filterBorrowers "" bs = bs)
  ∧ (∀ t bs,
       AdminBorrowers.filterBorrowers t (AdminBorrowers.filterBorrowers t bs)
       = AdminBorrowers.filterBorrowers t bs)
  ∧ (∀ ls, VerifierLoans.filterLoans "" ls = ls)
  ∧ (∀ t ls,
       VerifierLoans.filterLoans t (VerifierLoans.filterLoans t ls)
       = VerifierLoans.filterLoans t ls)
  ∧ (∀ bs, VerifierBorrowers.filterBorrowers "" bs = bs)
  ∧ (∀ t bs,
       VerifierBorrowers.filterBorrowers t
         (VerifierBorrowers.filterBorrowers t bs)
       = VerifierBorrowers.filterBorrowers t bs).
Proof.
  repeat split; intros;
    first [ apply filter_twice
          | apply filter_keeps_all;
            auto using admin_loans_match_empty, verifier_loans_match_empty,
              admin_borrowers_match_empty, verifier_borrowers_match_empty ].
Qed.

(** ** Statistics *)

Lemma guardedPercent_guarded num den : wellGuarded (guardedPercent num den).
Proof.
  unfold guardedPercent. destruct (0 <? den) eqn:Hd; cbn; [lia | exact I].
Qed.

(** C7. On the empty collection the statistics are zero: the loan totals
    are 0 and every percentage cell renders the number 0. On every
    collection each percentage cell is guarded: it divides only by a
    positive number, so no quotient by zero is formed. *)
Theorem empty_collection_statistics :
  (AdminLoans.totalLoans [] = 0
   ∧ AdminLoans.totalAmount [] = 0
   ∧ AdminLoans.totalDisbursed [] = 0
   ∧ AdminLoans.totalRepaid [] = 0
   ∧ AdminLoans.disbursedPercent [] = Zero
   ∧ AdminLoans.repaidPercent [] = Zero)
  ∧ (∀ s, VerifierLoans.countStatus s [] = 0
          ∧ VerifierLoans.statusPercent s [] = Zero)
  ∧ (∀ s, AdminBorrowers.countStatus s [] = 0
          ∧ AdminBorrowers.statusPercent s [] = Zero)
  ∧ (∀ s, VerifierBorrowers.countStatus s [] = 0
          ∧ VerifierBorrowers.statusPercent s [] = Zero)
  ∧ (∀ ls, wellGuarded (AdminLoans.disbursedPercent ls)
           ∧ wellGuarded (AdminLoans.repaidPercent ls))
  ∧ (∀ loan, wellGuarded (AdminLoans.paidPercent loan))
  ∧ (∀ s ls, wellGuarded (VerifierLoans.statusPercent s ls))
  ∧ (∀ s bs, wellGuarded (AdminBorrowers.statusPercent s bs))
  ∧ (∀ s bs, wellGuarded (VerifierBorrowers.statusPercent s bs)).
Proof.
  repeat split; try reflexivity; intros; apply guardedPercent_guarded.
Qed.

(** ** Pagination *)

Lemma ceilDiv_by_5 n : Js.ceilDiv n 5 = (n + 4) / 5.
Proof.
  unfold Js.ceilDiv, Qceiling, Qfloor. cbn.
  rewrite Z.mul_1_r. Z.div_mod_to_equations. lia.
Qed.

Lemma slice_from_start {A} (l : list A) (a b : Z) :
  0 ≤ a → a ≤ b →
  Js.slice l a b = take (Z.to_nat b - Z.to_nat a) (drop (Z.to_nat a) l).
Proof.
  intros Ha Hab. unfold Js.slice.
  destruct (Z.ltb_spec a 0); [lia|]. destruct (Z.ltb_spec b 0); [lia|].
  destruct (Z.le_gt_cases (Z.of_nat (length l)) a) as [Hout|Hin].
  - rewrite Z.min_r by lia. rewrite Z.min_r by lia.
    rewrite Nat2Z.id, Z.sub_diag. cbn.
    rewrite !drop_ge by lia. by destruct (_ - _)%nat.
  - rewrite (Z.min_l a) by lia.
    destruct (Z.le_gt_cases b (Z.of_nat (length l))).
    + rewrite Z.min_l by lia. f_equal. lia.
    + rewrite Z.min_r by lia.
      rewrite !take_ge; [done | |]; rewrite length_drop; lia.
Qed.

Lemma currentRows_of_page {A} (rows : list A) (i : nat) :
  Pagination.currentRows rows (Z.of_nat i + 1) = take 5 (drop (5 * i) rows).
Proof.
  unfold Pagination.currentRows, Pagination.indexOfFirstItem,
    Pagination.indexOfLastItem, Pagination.itemsPerPage.
  rewrite slice_from_start by lia.
  f_equal; [lia | f_equal; lia].
Qed.

Lemma first_pages_concat {A} (rows : list A) (n : nat) :
  concat ((λ i : nat, take 5 (drop (5 * i) rows)) <$> seq 0 n)
  = take (5 * n) rows.
Proof.
  induction n as [|n IH]; [by rewrite take_0|].
  rewrite seq_S, fmap_app, concat_app, IH. cbn.
  rewrite app_nil_r, take_take_drop. f_equal. lia.
Qed.

(** C8. With pages of five rows, the page slices of pages 1 to
    [totalPages], concatenated in order, are the original collection:
    every row appears once, in its place. *)
Theorem pages_reconstruct_collection :
  ∀ (A : Type) (rows : list A),
    Pagination.itemsPerPage = 5
    ∧ Pagination.totalPages rows = (Z.of_nat (length rows) + 4) / 5
    ∧ concat (Pagination.allPages rows) = rows.
Proof.
  intros A rows. split; [reflexivity|].
  assert (Ht : Pagination.totalPages rows = (Z.of_nat (length rows) + 4) / 5)
    by apply ceilDiv_by_5.
  split; [exact Ht|].
  unfold Pagination.allPages, Pagination.pageNumbers.
  rewrite <- list_fmap_compose.
  rewrite (list_fmap_ext _ (λ i : nat, take 5 (drop (5 * i) rows)))
    by (intros; apply currentRows_of_page).
  rewrite first_pages_concat. apply take_ge.
  rewrite Ht. Z.div_mod_to_equations. lia.
Qed.

(** ** Worked examples *)

Example admin_row_buttons :
  AdminLoans.rowActions
    <$> [pending; verified; approved; disbursed; repaying; completed;
         defaulted; rejected]
  = [ [verified; rejected]; [approved; rejected]; [disbursed; rejected];
      [repaying; defaulted]; [completed; defaulted]; []; []; [] ].
Proof. reflexivity. Qed.

Example verifier_row_buttons :
  allowedTargets verifier <$> [pending; verified; approved; rejected]
  = [ [verified; rejected]; []; []; [] ].
Proof. reflexivity. Qed.

Example eleven_rows_make_three_pages :
  Pagination.allPages [1; 2; 3; 4; 5; 6; 7; 8; 9; 10; 11]
  = [ [1; 2; 3; 4; 5]; [6; 7; 8; 9; 10]; [11] ].
Proof. reflexivity. Qed.

Example page_beyond_the_end_is_empty :
  Pagination.currentRows [1; 2; 3] 2 = [].
Proof. reflexivity. Qed.

Example name_search_ignores_case :
  AdminBorrowers.filterBorrowers "ASHA"
    [Samples.noPhoneBorrower; Samples.otherBorrower]
  = [Samples.noPhoneBorrower].
Proof. reflexivity. Qed.

Example phone_search_is_literal :
  AdminBorrowers.matchesSearch "Not pro" Samples.noPhoneBorrower = true
  ∧ AdminBorrowers.matchesSearch "not pro" Samples.noPhoneBorrower = false.
Proof. split; reflexivity. Qed.

Example loan_search_by_status :
  AdminLoans.filterLoans "APPR" [Samples.pendingLoan; Samples.approvedLoan]
  = [Samples.approvedLoan].
Proof. reflexivity. Qed.

Example rejected_patch_reports_backend_message :
  AdminLoans.handleUpdateStatus (Rejected (Some "Not allowed"%string))
    Samples.adminLoansState "loan-1" disbursed
  = {| AdminLoans.loans := [Samples.pendingLoan; Samples.approvedLoan];
       AdminLoans.searchTerm := "";
       AdminLoans.toasts :=
         [ {| variant := Some "destructive"%string;
              title := "Failed to update status";
              description := "Not allowed" |} ] |}.
Proof. reflexivity. Qed.

Example accepted_patch_toast :
  AdminLoans.toasts
    (AdminLoans.handleUpdateStatus Resolved Samples.adminLoansState
       "loan-1" disbursed)
  = [ {| variant := None;
         title := "Status Updated";
         description := "Loan status has been updated to DISBURSED" |} ].
Proof. reflexivity. Qed.

Example paid_cell_of_unpaid_loan :
  AdminLoans.paidPercent Samples.approvedLoan = Fixed1 0 115000.
Proof. reflexivity. Qed.

(** ** The pager *)

Lemma currentRows_from_one {A} (rows : list A) (p : Z) :
  1 ≤ p →
  Pagination.currentRows rows p
  = take 5 (drop (5 * Z.to_nat (p - 1)) rows).
Proof.
  intros Hp. rewrite <- currentRows_of_page. f_equal. lia.
Qed.

Lemma totalPages_bounds {A} (rows : list A) :
  let n := Z.of_nat (length rows) in
  5 * (Pagination.totalPages rows - 1) < n ≤ 5 * Pagination.totalPages rows.
Proof.
  cbn. unfold Pagination.totalPages, Pagination.itemsPerPage.
  rewrite ceilDiv_by_5. Z.div_mod_to_equations. lia.
Qed.

Lemma page_length {A} (rows : list A) (p : Z) :
  1 ≤ p →
  Z.of_nat (length (Pagination.currentRows rows p))
  = Z.max 0 (Z.min 5 (Z.of_nat (length rows) - 5 * (p - 1))).
Proof.
  intros Hp. rewrite currentRows_from_one by done.
  rewrite length_take, length_drop. lia.
Qed.

(** X1. Every page from 1 to [totalPages] shows between one and five
    rows; the pages before the last show five, and the last shows what
    remains. *)
Theorem page_row_counts :
  ∀ (A : Type) (rows : list A) (p : Z),
    1 ≤ p → p ≤ Pagination.totalPages rows →
    let n := Z.of_nat (length (Pagination.currentRows rows p)) in
    1 ≤ n ≤ 5
    ∧ (p < Pagination.totalPages rows → n = 5)
    ∧ (p = Pagination.totalPages rows →
       n = Z.of_nat (length rows) - 5 * (p - 1)).
Proof.
  intros A rows p Hp1 Hp2. cbn.
  rewrite page_length by done.
  pose proof (totalPages_bounds rows) as Hb. cbn in Hb. lia.
Qed.

Lemma page_row_counts_witness :
  let n :=
    Z.of_nat (length (Pagination.currentRows MoreSamples.sevenRows 2)) in
  1 ≤ n ≤ 5
  ∧ (2 < Pagination.totalPages MoreSamples.sevenRows → n = 5)
  ∧ (2 = Pagination.totalPages MoreSamples.sevenRows →
     n = Z.of_nat (length MoreSamples.sevenRows) - 5 * (2 - 1)).
Proof.
  apply (page_row_counts Z MoreSamples.sevenRows 2); vm_compute; congruence.
Defined.

(** X2. The page number is not clamped when the rows shrink: on a page
    beyond [totalPages] the table shows no row, and where the pager is
    rendered its range label is inverted and Next is not disabled: a click
    moves further away. *)
Theorem page_beyond_last_is_empty :
  ∀ (A : Type) (rows : list A) (p : Z),
    Pagination.totalPages rows < p →
    Pagination.currentRows rows p = []
    ∧ Pager.rangeEnd rows p < Pager.rangeStart p
    ∧ Pager.clickNext rows p = p + 1.
Proof.
  intros A rows p Hp.
  pose proof (totalPages_bounds rows) as Hb. cbn in Hb.
  assert (1 ≤ p) by lia.
  split; [|split].
  - rewrite currentRows_from_one by done.
    rewrite drop_ge by lia. by rewrite take_nil.
  - unfold Pager.rangeEnd, Pager.rangeStart, Pagination.indexOfFirstItem,
      Pagination.indexOfLastItem, Pagination.itemsPerPage. lia.
  - unfold Pager.clickNext, Pagination.nextDisabled.
    rewrite bool_decide_eq_false_2; [done | lia].
Qed.

Lemma page_beyond_last_is_empty_witness :
  Pagination.currentRows MoreSamples.sevenRows 3 = []
  ∧ Pager.rangeEnd MoreSamples.sevenRows 3 < Pager.rangeStart 3
  ∧ Pager.clickNext MoreSamples.sevenRows 3 = 3 + 1.
Proof.
  apply (page_beyond_last_is_empty Z MoreSamples.sevenRows 3).
  vm_compute. reflexivity.
Defined.

(** X3. On a page from 1 to [totalPages] the range label "a-b of n"
    describes the rows shown: b - a + 1 rows are shown, and the k-th of
    them is row number a + k of the collection (counting rows from 1). *)
Theorem range_label_matches_rows :
  ∀ (A : Type) (rows : list A) (p : Z),
    1 ≤ p → p ≤ Pagination.totalPages rows →
    Pager.rangeEnd rows p - Pager.rangeStart p + 1
    = Z.of_nat (length (Pagination.currentRows rows p))
    ∧ ∀ k : nat,
        (k < length (Pagination.currentRows rows p))%nat →
        Pagination.currentRows rows p !! k
        = rows !! (Z.to_nat (Pager.rangeStart p) - 1 + k)%nat.
Proof.
  intros A rows p Hp1 Hp2.
  pose proof (totalPages_bounds rows) as Hb. cbn in Hb.
  split.
  - rewrite page_length by done.
    unfold Pager.rangeEnd, Pager.rangeStart, Pagination.indexOfFirstItem,
      Pagination.indexOfLastItem, Pagination.itemsPerPage. lia.
  - intros k Hk. rewrite currentRows_from_one in * by done.
    rewrite length_take in Hk.
    rewrite lookup_take_lt by lia. rewrite lookup_drop. f_equal.
    unfold Pager.rangeStart, Pagination.indexOfFirstItem,
      Pagination.indexOfLastItem, Pagination.itemsPerPage. lia.
Qed.

Lemma range_label_matches_rows_witness :
  Pager.rangeEnd MoreSamples.sevenRows 2 - Pager.rangeStart 2 + 1
  = Z.of_nat (length (Pagination.currentRows MoreSamples.sevenRows 2))
  ∧ Pagination.currentRows MoreSamples.sevenRows 2 !! 1%nat
    = MoreSamples.sevenRows !! (Z.to_nat (Pager.rangeStart 2) - 1 + 1)%nat.
Proof.
  destruct (range_label_matches_rows Z MoreSamples.sevenRows 2)
    as [Hcount Hrow]; [vm_compute; congruence .. |].
  split; [exact Hcount|]. apply Hrow. vm_compute. lia.
Defined.

(** X4. The chevron buttons keep the page number within 1 and
    [totalPages]: Previous is disabled on page 1 and Next on the last
    page. *)
Theorem pager_clicks_stay_in_range :
  ∀ (A : Type) (rows : list A) (p : Z),
    1 ≤ p → p ≤ Pagination.totalPages rows →
    1 ≤ Pager.clickPrev p ≤ Pagination.totalPages rows
    ∧ 1 ≤ Pager.clickNext rows p ≤ Pagination.totalPages rows.
Proof.
  intros A rows p Hp1 Hp2.
  unfold Pager.clickPrev, Pager.clickNext, Pagination.prevDisabled,
    Pagination.nextDisabled.
  repeat case_bool_decide; lia.
Qed.

Lemma pager_clicks_stay_in_range_witness :
  1 ≤ Pager.clickPrev 1 ≤ Pagination.totalPages MoreSamples.sevenRows
  ∧ 1 ≤ Pager.clickNext MoreSamples.sevenRows 1
    ≤ Pagination.totalPages MoreSamples.sevenRows.
Proof.
  apply (pager_clicks_stay_in_range Z MoreSamples.sevenRows 1);
    vm_compute; congruence.
Defined.

(** ** Tabs, counts and totals *)

(** Settles every comparison of two status literals in the goal. *)
Ltac decide_statuses :=
  repeat first [ rewrite bool_decide_eq_true_2 by done
               | rewrite bool_decide_eq_false_2 by done ].

(** X5. The seven status tabs of the admin loans page show only loans of
    the filtered list, none of them rejected, and together they show every
    loan that is not rejected exactly once: a rejected loan is reachable
    from the All tab only. *)
Theorem status_tabs_omit_rejected :
  ∀ filtered : list AdminLoans.Loan,
    (∀ tab loan,
       tab ≠ AdminLoansTabs.TabAll →
       In loan (AdminLoansTabs.tabLoans tab filtered) →
       In loan filtered ∧ AdminLoans.status loan ≠ rejected)
    ∧ (sum_list
         ((λ tab, length (AdminLoansTabs.tabLoans tab filtered))
            <$> tail AdminLoansTabs.tabs)
       + length (List.filter (AdminLoansTabs.hasStatus rejected) filtered)
       = length filtered)%nat.
Proof.
  intros filtered. split.
  - intros tab loan Htab Hin.
    destruct tab; [done| ..]; cbn in Hin;
      apply filter_In in Hin as [Hin Hs];
      apply bool_decide_eq_true in Hs; rewrite Hs; done.
  - induction filtered as [|x l IH]; [done|].
    cbn in *. unfold AdminLoansTabs.hasStatus in *.
    destruct (AdminLoans.status x);
      decide_statuses; cbn; lia.
Qed.

Lemma sumOf_from {A} (f : A → Z) (l : list A) (acc : Z) :
  fold_left (λ sum x, sum + f x) l acc = acc + Js.sumOf f l.
Proof.
  unfold Js.sumOf. revert acc.
  induction l as [|x l IH]; intros acc; cbn; [lia|].
  rewrite (IH (acc + f x)), (IH (0 + f x)). lia.
Qed.

Lemma sumOf_cons {A} (f : A → Z) (x : A) (l : list A) :
  Js.sumOf f (x :: l) = f x + Js.sumOf f l.
Proof. unfold Js.sumOf at 1. cbn. apply sumOf_from. Qed.

Lemma sumOf_fmap {A} (f : A → Z) (g : A → A) (l : list A) :
  (∀ x, f (g x) = f x) → Js.sumOf f (g <$> l) = Js.sumOf f l.
Proof.
  intros Hfg. induction l as [|x l IH]; [done|].
  by rewrite fmap_cons, !sumOf_cons, Hfg, IH.
Qed.

Lemma sumOf_filter_le {A} (f : A → Z) (keep : A → bool) (l : list A) :
  Forall (λ x, 0 ≤ f x) l →
  0 ≤ Js.sumOf f (List.filter keep l) ≤ Js.sumOf f l.
Proof.
  induction 1 as [|x l Hx _ IH]; [done|].
  cbn [List.filter]. destruct (keep x); rewrite ?sumOf_cons; lia.
Qed.

(** X6. A successful status update leaves the Total Loans, Total Amount
    and Total Repaid cards of the admin loans page unchanged. *)
Theorem status_update_keeps_totals :
  ∀ (st : AdminLoans.State) (X : string) (s : LoanStatus),
    let rows := AdminLoans.loans st in
    let rows' :=
      AdminLoans.loans (AdminLoans.handleUpdateStatus Resolved st X s) in
    AdminLoans.totalLoans rows' = AdminLoans.totalLoans rows
    ∧ AdminLoans.totalAmount rows' = AdminLoans.totalAmount rows
    ∧ AdminLoans.totalRepaid rows' = AdminLoans.totalRepaid rows.
Proof.
  intros st X s. cbn.
  unfold AdminLoans.totalLoans, AdminLoans.totalAmount,
    AdminLoans.totalRepaid.
  rewrite length_fmap.
  split; [done|].
  split; apply sumOf_fmap; intros x; unfold AdminLoans.updateOne;
    by destruct (String.eqb _ _).
Qed.

Lemma sumOf_take_le {A} (f : A → Z) (l : list A) :
  Forall (λ x, 0 ≤ f x) l →
  ∀ k : nat, 0 ≤ Js.sumOf f (take k l) ≤ Js.sumOf f l.
Proof.
  induction 1 as [|x l Hx Hl IH]; intros k.
  - by rewrite take_nil.
  - destruct k as [|k]; cbn [take]; rewrite ?sumOf_cons.
    + assert (0 ≤ Js.sumOf f l) by (specialize (IH 0%nat); lia).
      unfold Js.sumOf at 1 2. cbn. lia.
    + specialize (IH k). lia.
Qed.

Lemma Forall_filter_keep {A} (P : A → Prop) (keep : A → bool) (l : list A) :
  Forall P l → Forall P (List.filter keep l).
Proof.
  induction 1 as [|x l Hx _ IH]; cbn; [done|].
  destruct (keep x); [by constructor | done].
Qed.

(** X7. When the loan amounts are non-negative integers whose sum does
    not exceed [Number.MAX_SAFE_INTEGER], every running sum of the two
    reductions stays between 0 and that bound (so the additions of the
    code are exact), Total Disbursed lies between 0 and Total Amount, and
    the "% of total amount" cell divides a part by its whole. *)
Theorem disbursed_total_bounded :
  ∀ ls : list AdminLoans.Loan,
    Forall (λ l, 0 ≤ AdminLoans.amount l) ls →
    AdminLoans.totalAmount ls ≤ maxSafeInteger →
    (∀ k : nat,
       0 ≤ Js.sumOf AdminLoans.amount (take k ls) ≤ maxSafeInteger
       ∧ 0 ≤ Js.sumOf AdminLoans.amount
               (take k
                  (List.filter
                     (λ loan,
                        bool_decide
                          (AdminLoans.status loan
                           ∈ [disbursed; repaying; completed; defaulted]))
                     ls))
           ≤ maxSafeInteger)
    ∧ 0 ≤ AdminLoans.totalDisbursed ls ≤ AdminLoans.totalAmount ls
    ∧ match AdminLoans.disbursedPercent ls with
      | Zero => True
      | Fixed1 num den => 0 ≤ num ≤ den ∧ 0 < den
      end.
Proof.
  intros ls Hls Hmax.
  assert (Hb : 0 ≤ AdminLoans.totalDisbursed ls ≤ AdminLoans.totalAmount ls)
    by (by apply sumOf_filter_le).
  split; [|split; [exact Hb|]].
  - intros k. split.
    + pose proof (sumOf_take_le AdminLoans.amount ls Hls k) as Hk.
      unfold AdminLoans.totalAmount in Hmax. lia.
    + unfold AdminLoans.totalDisbursed, AdminLoans.totalAmount in *.
      match goal with
      | |- context [List.filter ?keep ls] =>
          pose proof (sumOf_take_le AdminLoans.amount (List.filter keep ls)
                        (Forall_filter_keep _ keep ls Hls) k) as Hk
      end.
      lia.
  - unfold AdminLoans.disbursedPercent, guardedPercent.
    destruct (Z.ltb_spec 0 (AdminLoans.totalAmount ls)); [lia | exact I].
Qed.

Lemma disbursed_total_bounded_witness :
  AdminLoans.totalDisbursed [Samples.pendingLoan; MoreSamples.disbursedLoan]
  = 60000
  ∧ AdminLoans.totalAmount [Samples.pendingLoan; MoreSamples.disbursedLoan]
    = 100000
  ∧ 0 ≤ AdminLoans.totalDisbursed
          [Samples.pendingLoan; MoreSamples.disbursedLoan]
      ≤ AdminLoans.totalAmount
          [Samples.pendingLoan; MoreSamples.disbursedLoan].
Proof.
  split; [reflexivity|]. split; [reflexivity|].
  apply (disbursed_total_bounded
           [Samples.pendingLoan; MoreSamples.disbursedLoan]).
  - repeat constructor; vm_compute; congruence.
  - vm_compute. congruence.
Defined.

(** X8. On each page with status cards the three counts add up to the
    number of rows: every row is counted under exactly one status. *)
Theorem status_counts_partition :
  (∀ bs : list AdminBorrowers.Borrower,
     AdminBorrowers.activeCount bs + AdminBorrowers.inactiveCount bs
     + AdminBorrowers.blacklistedCount bs
     = Z.of_nat (length bs))
  ∧ (∀ bs : list VerifierBorrowers.Borrower,
       VerifierBorrowers.pendingCount bs + VerifierBorrowers.verifiedCount bs
       + VerifierBorrowers.rejectedCount bs
       = Z.of_nat (length bs))
  ∧ (∀ ls : list VerifierLoans.Loan,
       VerifierLoans.pendingCount ls + VerifierLoans.verifiedCount ls
       + VerifierLoans.rejectedCount ls
       = Z.of_nat (length ls)).
Proof.
  split; [|split]; intros l.
  - unfold AdminBorrowers.activeCount, AdminBorrowers.inactiveCount,
      AdminBorrowers.blacklistedCount, AdminBorrowers.countStatus.
    induction l as [|x l IH]; [done|].
    cbn. destruct (AdminBorrowers.status x); decide_statuses; cbn; lia.
  - unfold VerifierBorrowers.pendingCount, VerifierBorrowers.verifiedCount,
      VerifierBorrowers.rejectedCount, VerifierBorrowers.countStatus.
    induction l as [|x l IH]; [done|].
    cbn. destruct (VerifierBorrowers.status x); decide_statuses; cbn; lia.
  - unfold VerifierLoans.pendingCount, VerifierLoans.verifiedCount,
      VerifierLoans.rejectedCount, VerifierLoans.countStatus.
    induction l as [|x l IH]; [done|].
    cbn. destruct (VerifierLoans.status x); decide_statuses; cbn; lia.
Qed.

(** ** How status updates compose *)

Section MapByIdCompose.
Context {A : Type}.
Variable getId : A → string.
Variables first second : A → A.
Hypothesis first_keeps_id : ∀ r, getId (first r) = getId r.
Hypothesis second_keeps_id : ∀ r, getId (second r) = getId r.

Lemma mapById_overwrite X r :
  (∀ r, second (first r) = second r) →
  mapById getId second X (mapById getId first X r)
  = mapById getId second X r.
Proof.
  intros Hover. unfold mapById.
  destruct (String.eqb (getId r) X) eqn:Hr; [|by rewrite Hr].
  by rewrite first_keeps_id, Hr, Hover.
Qed.

Lemma mapById_swap X Y r :
  X ≠ Y →
  mapById getId second Y (mapById getId first X r)
  = mapById getId first X (mapById getId second Y r).
Proof.
  intros Hne. unfold mapById.
  destruct (String.eqb_spec (getId r) X) as [Hx|Hx];
    destruct (String.eqb_spec (getId r) Y) as [Hy|Hy].
  - congruence.
  - rewrite first_keeps_id.
    destruct (String.eqb_spec (getId r) Y); [contradiction|].
    destruct (String.eqb_spec (getId r) X); [done | contradiction].
  - rewrite second_keeps_id.
    destruct (String.eqb_spec (getId r) X); [contradiction|].
    destruct (String.eqb_spec (getId r) Y); [done | contradiction].
  - destruct (String.eqb_spec (getId r) X); [contradiction|].
    destruct (String.eqb_spec (getId r) Y); [contradiction | done].
Qed.

Lemma mapById_absent X (rows : list A) :
  ¬ In X (getId <$> rows) → mapById getId first X <$> rows = rows.
Proof.
  induction rows as [|r rows IH]; [done|].
  cbn. intros Hno. rewrite IH by tauto. f_equal.
  apply mapById_miss. tauto.
Qed.
End MapByIdCompose.

Lemma filter_fmap_same {A} (keep : A → bool) (g : A → A) (l : list A) :
  (∀ x, keep (g x) = keep x) →
  List.filter keep (g <$> l) = g <$> List.filter keep l.
Proof.
  intros Hk. induction l as [|x l IH]; [done|].
  cbn. rewrite Hk. destruct (keep x); cbn; by rewrite IH.
Qed.

(** X9. Two successful updates of the same identifier leave the rows as
    the second update alone would: the last status written wins. Stated
    for the admin loans and admin borrowers pages. *)
Theorem update_last_write_wins :
  (∀ (st : AdminLoans.State) (X : string) (s1 s2 : LoanStatus),
     AdminLoans.loans
       (AdminLoans.handleUpdateStatus Resolved
          (AdminLoans.handleUpdateStatus Resolved st X s1) X s2)
     = AdminLoans.loans (AdminLoans.handleUpdateStatus Resolved st X s2))
  ∧ (∀ (st : AdminBorrowers.State) (X : string)
       (s1 s2 : AdminBorrowers.Status),
       AdminBorrowers.borrowers
         (AdminBorrowers.handleUpdateStatus Resolved
            (AdminBorrowers.handleUpdateStatus Resolved st X s1) X s2)
       = AdminBorrowers.borrowers
           (AdminBorrowers.handleUpdateStatus Resolved st X s2)).
Proof.
  split; intros st X s1 s2; cbn; rewrite <- list_fmap_compose;
    apply list_fmap_ext; intros i r _; cbn.
  - rewrite !admin_loans_updateOne. by apply mapById_overwrite.
  - rewrite !admin_borrowers_updateOne. by apply mapById_overwrite.
Qed.

(** X10. Two status requests for different identifiers. When both are
    issued from the same render, each handler maps over the rows of the
    click: after both have resolved the rows are those of the request that
    resolved last applied alone, and the row of the other request is back
    to what it was at the click. When the second request is issued after
    the first was applied and rendered, the two updates commute. *)
Theorem overlapping_updates_keep_the_last :
  ∀ X Y : string,
    X ≠ Y →
    (∀ (st : AdminLoans.State) (s1 s2 : LoanStatus),
       let first := AdminLoansLater.resolveLater (AdminLoans.loans st) st X s1
       in
       let both :=
         AdminLoansLater.resolveLater (AdminLoans.loans st) first Y s2 in
       first = AdminLoans.handleUpdateStatus Resolved st X s1
       ∧ AdminLoans.loans both
         = AdminLoans.loans (AdminLoans.handleUpdateStatus Resolved st Y s2)
       ∧ (∀ (i : nat) (r : AdminLoans.Loan),
            AdminLoans.loans st !! i = Some r →
            AdminLoans._id r = X →
            AdminLoans.loans both !! i = Some r)
       ∧ AdminLoans.loans
           (AdminLoans.handleUpdateStatus Resolved
              (AdminLoans.handleUpdateStatus Resolved st X s1) Y s2)
         = AdminLoans.loans
             (AdminLoans.handleUpdateStatus Resolved
                (AdminLoans.handleUpdateStatus Resolved st Y s2) X s1))
    ∧ (∀ (st : AdminBorrowers.State) (s1 s2 : AdminBorrowers.Status),
         let first :=
           AdminBorrowersLater.resolveLater (AdminBorrowers.borrowers st) st
             X s1 in
         let both :=
           AdminBorrowersLater.resolveLater (AdminBorrowers.borrowers st)
             first Y s2 in
         first = AdminBorrowers.handleUpdateStatus Resolved st X s1
         ∧ AdminBorrowers.borrowers both
           = AdminBorrowers.borrowers
               (AdminBorrowers.handleUpdateStatus Resolved st Y s2)
         ∧ (∀ (i : nat) (r : AdminBorrowers.Borrower),
              AdminBorrowers.borrowers st !! i = Some r →
              AdminBorrowers._id r = X →
              AdminBorrowers.borrowers both !! i = Some r)
         ∧ AdminBorrowers.borrowers
             (AdminBorrowers.handleUpdateStatus Resolved
                (AdminBorrowers.handleUpdateStatus Resolved st X s1) Y s2)
           = AdminBorrowers.borrowers
               (AdminBorrowers.handleUpdateStatus Resolved
                  (AdminBorrowers.handleUpdateStatus Resolved st Y s2) X s1)).
Proof.
  intros X Y Hne.
  split; intros st s1 s2; cbn; (split; [done|]); (split; [done|]); split.
  - intros i r Hi Hid. rewrite admin_loans_updateOne.
    apply mapById_lookup_miss; [done | congruence].
  - rewrite <- !list_fmap_compose.
    apply list_fmap_ext; intros i r _; cbn.
    rewrite !admin_loans_updateOne. by apply mapById_swap.
  - intros i r Hi Hid. rewrite admin_borrowers_updateOne.
    apply mapById_lookup_miss; [done | congruence].
  - rewrite <- !list_fmap_compose.
    apply list_fmap_ext; intros i r _; cbn.
    rewrite !admin_borrowers_updateOne. by apply mapById_swap.
Qed.

Lemma overlapping_updates_keep_the_last_witness :
  AdminLoans.loans
    (AdminLoansLater.resolveLater
       (AdminLoans.loans Samples.adminLoansState)
       (AdminLoansLater.resolveLater
          (AdminLoans.loans Samples.adminLoansState)
          Samples.adminLoansState "loan-1" disbursed)
       "loan-2" verified) !! 1%nat
  = Some Samples.approvedLoan.
Proof.
  destruct (proj1 (overlapping_updates_keep_the_last "loan-1" "loan-2"
                     ltac:(discriminate))
              Samples.adminLoansState disbursed verified)
    as (_ & _ & Hlost & _).
  apply (Hlost 1%nat Samples.approvedLoan); reflexivity.
Defined.

(** X11. A successful update for an identifier that no row carries leaves
    the rows as they are, and is still announced by the "Status Updated"
    toast. *)
Theorem update_of_unknown_id :
  ∀ (st : AdminLoans.State) (X : string) (s : LoanStatus),
    ¬ In X (AdminLoans._id <$> AdminLoans.loans st) →
    let st' := AdminLoans.handleUpdateStatus Resolved st X s in
    AdminLoans.loans st' = AdminLoans.loans st
    ∧ ∃ text,
        AdminLoans.toasts st'
        = AdminLoans.toasts st
          ++ [ {| variant := None;
                  title := "Status Updated";
                  description := text |} ].
Proof.
  intros st X s Hno. cbn. split; [|eauto].
  rewrite admin_loans_updateOne. by apply mapById_absent.
Qed.

Lemma update_of_unknown_id_witness :
  let st' :=
    AdminLoans.handleUpdateStatus Resolved Samples.adminLoansState
      "loan-9" rejected in
  AdminLoans.loans st' = AdminLoans.loans Samples.adminLoansState
  ∧ ∃ text,
      AdminLoans.toasts st'
      = AdminLoans.toasts Samples.adminLoansState
        ++ [ {| variant := None;
                title := "Status Updated";
                description := text |} ].
Proof.
  apply (update_of_unknown_id Samples.adminLoansState "loan-9" rejected).
  cbn. intuition discriminate.
Defined.

(** X12. On the borrower pages the search does not read the status, so a
    status update never changes which borrowers the search shows: the
    filtered list after the update is the updated filtered list. *)
Theorem borrower_search_ignores_status :
  (∀ (st : AdminBorrowers.State) (X : string) (s : AdminBorrowers.Status),
     AdminBorrowers.filteredBorrowers
       (AdminBorrowers.handleUpdateStatus Resolved st X s)
     = AdminBorrowers.updateOne X s <$> AdminBorrowers.filteredBorrowers st)
  ∧ (∀ (st : VerifierBorrowers.State) (X : string)
       (s : VerifierBorrowers.Status),
       VerifierBorrowers.filteredBorrowers
         (VerifierBorrowers.handleUpdateStatus Resolved st X s)
       = VerifierBorrowers.updateOne X s
           <$> VerifierBorrowers.filteredBorrowers st).
Proof.
  split; intros st X s.
  - unfold AdminBorrowers.filteredBorrowers, AdminBorrowers.filterBorrowers.
    cbn. apply filter_fmap_same. intros b.
    unfold AdminBorrowers.updateOne. by destruct (String.eqb _ _).
  - unfold VerifierBorrowers.filteredBorrowers,
      VerifierBorrowers.filterBorrowers.
    cbn. apply filter_fmap_same. intros b.
    unfold VerifierBorrowers.updateOne. by destruct (String.eqb _ _).
Qed.

(** ** Shape of the status buttons *)




(** X14. On the admin table every status that has a button has exactly
    two: one step forward and one negative exit, Reject before disbursal
    and Mark Default after it. *)
Theorem admin_open_loan_has_negative_exit :
  ∀ s : LoanStatus,
    AdminLoans.rowActions s ≠ [] →
    length (AdminLoans.rowActions s) = 2%nat
    ∧ (stage s < 3 → adminOffers s rejected ∧ ¬ adminOffers s defaulted)
    ∧ (3 ≤ stage s → adminOffers s defaulted ∧ ¬ adminOffers s rejected).
Proof.
  intros [] Hs; try (by destruct Hs);
    (split; [reflexivity|]); split; intros Hst; try (cbn in Hst; lia);
    compute; intuition discriminate.
Qed.

Lemma admin_open_loan_has_negative_exit_witness :
  length (AdminLoans.rowActions approved) = 2%nat
  ∧ (stage approved < 3 →
     adminOffers approved rejected ∧ ¬ adminOffers approved defaulted)
  ∧ (3 ≤ stage approved →
     adminOffers approved defaulted ∧ ¬ adminOffers approved rejected).
Proof.
  apply (admin_open_loan_has_negative_exit approved). discriminate.
Defined.


(** X16. The admin borrowers table offers, for each row, a button to
    each status other than the current one, and none to the current
    status: no click is a no-op. *)
Theorem borrower_buttons_are_the_other_statuses :
  ∀ s t : AdminBorrowers.Status,
    In t (AdminBorrowers.rowActions s) ↔ t ≠ s.
Proof.
  intros [] []; compute; intuition congruence.
Qed.

(** ** The add dialogs *)

Lemma isBlank_false s : isBlank s = false ↔ s ≠ EmptyString.
Proof. destruct s; cbn; split; congruence. Qed.

Lemma orElse_not_blank a b : isBlank b = false → isBlank (Js.orElse a b) = false.
Proof. intros Hb. by destruct a as [[|]|]. Qed.

Lemma cons_differs {A} (x : A) (l : list A) : x :: l ≠ l.
Proof. intros H. apply (f_equal length) in H. cbn in H. lia. Qed.

Lemma snoc_differs {A} (x : A) (l : list A) : l ++ [x] ≠ l.
Proof.
  intros H. apply (f_equal length) in H. rewrite length_app in H.
  cbn in H. lia.
Qed.

(** X17. Each add dialog changes the rows exactly when the backend
    created the entity and every required field is filled in: user,
    amount, interest rate, tenure and reason for a loan (the employment
    fields are optional); name, email and password for a borrower (the
    phone is optional) and for a user. *)
Theorem add_dialogs_change_rows_iff :
  (∀ (api : PostResult AdminLoans.Loan) (st : AdminLoansDialog.State),
     AdminLoans.loans
       (AdminLoansDialog.page (AdminLoansDialog.handleAddLoan api st))
     ≠ AdminLoans.loans (AdminLoansDialog.page st)
     ↔ (∃ loan, api = Created loan)
       ∧ AdminLoansDialog.userId (AdminLoansDialog.newLoan st) ≠ ""%string
       ∧ AdminLoansDialog.amount (AdminLoansDialog.newLoan st) ≠ ""%string
       ∧ AdminLoansDialog.interestRate (AdminLoansDialog.newLoan st)
         ≠ ""%string
       ∧ AdminLoansDialog.tenure (AdminLoansDialog.newLoan st) ≠ ""%string
       ∧ AdminLoansDialog.reason (AdminLoansDialog.newLoan st) ≠ ""%string)
  ∧ (∀ (now : string) (api : PostResult AdminBorrowersDialog.Registered.t)
       (st : AdminBorrowersDialog.State),
       AdminBorrowers.borrowers
         (AdminBorrowersDialog.page
            (AdminBorrowersDialog.handleAddBorrower now api st))
       ≠ AdminBorrowers.borrowers (AdminBorrowersDialog.page st)
       ↔ (∃ newUser, api = Created newUser)
         ∧ AdminBorrowersDialog.name (AdminBorrowersDialog.newBorrower st)
           ≠ ""%string
         ∧ AdminBorrowersDialog.email (AdminBorrowersDialog.newBorrower st)
           ≠ ""%string
         ∧ AdminBorrowersDialog.password
             (AdminBorrowersDialog.newBorrower st)
           ≠ ""%string)
  ∧ (∀ (today : string) (api : PostResult ManageUsers.CreatedUser.t)
       (st : ManageUsers.State),
       ManageUsers.users (ManageUsers.handleAddUser today api st)
       ≠ ManageUsers.users st
       ↔ (∃ created, api = Created created)
         ∧ ManageUsers.NewUser.name (ManageUsers.newUser st) ≠ ""%string
         ∧ ManageUsers.NewUser.email (ManageUsers.newUser st) ≠ ""%string
         ∧ ManageUsers.NewUser.password (ManageUsers.newUser st)
           ≠ ""%string).
Proof.
  split; [|split].
  - intros api st.
    unfold AdminLoansDialog.handleAddLoan, AdminLoansDialog.incomplete.
    rewrite <- !isBlank_false.
    destruct (isBlank (AdminLoansDialog.userId _)),
      (isBlank (AdminLoansDialog.amount _)),
      (isBlank (AdminLoansDialog.interestRate _)),
      (isBlank (AdminLoansDialog.tenure _)),
      (isBlank (AdminLoansDialog.reason _)); cbn;
      try (split; [congruence | intros (_ & ? & ? & ? & ? & ?); congruence]).
    destruct api as [loan | message]; cbn; split.
    + eauto 10.
    + intros _. apply cons_differs.
    + congruence.
    + intros [[loan Hl] _]. discriminate Hl.
  - intros now api st.
    unfold AdminBorrowersDialog.handleAddBorrower,
      AdminBorrowersDialog.incomplete.
    rewrite <- !isBlank_false.
    destruct (isBlank (AdminBorrowersDialog.name _)),
      (isBlank (AdminBorrowersDialog.email _)),
      (isBlank (AdminBorrowersDialog.password _)); cbn;
      try (split; [congruence | intros (_ & ? & ? & ?); congruence]).
    destruct api as [newUser | message]; cbn; split.
    + eauto 10.
    + intros _. apply snoc_differs.
    + congruence.
    + intros [[newUser Hl] _]. discriminate Hl.
  - intros today api st.
    unfold ManageUsers.handleAddUser, ManageUsers.incomplete.
    rewrite <- !isBlank_false.
    destruct (isBlank (ManageUsers.NewUser.name _)),
      (isBlank (ManageUsers.NewUser.email _)),
      (isBlank (ManageUsers.NewUser.password _)); cbn;
      try (split; [congruence | intros (_ & ? & ? & ?); congruence]).
    destruct api as [created | message]; cbn; split.
    + eauto 10.
    + intros _. apply snoc_differs.
    + congruence.
    + intros [[created Hl] _]. discriminate Hl.
Qed.

(** X18. When a loan is added, it becomes the first row and the count of
    loans grows by one; if it matches the current search term it is the
    first row of page 1 of the All tab; and the form is back to its
    defaults, so submitting it again without filling it in adds nothing,
    whatever the backend would answer. *)
Theorem added_loan_is_first :
  ∀ (st : AdminLoansDialog.State) (loan : AdminLoans.Loan),
    AdminLoansDialog.incomplete (AdminLoansDialog.newLoan st) = false →
    let st' := AdminLoansDialog.handleAddLoan (Created loan) st in
    let rows' := AdminLoans.loans (AdminLoansDialog.page st') in
    rows' = loan :: AdminLoans.loans (AdminLoansDialog.page st)
    ∧ AdminLoans.totalLoans rows'
      = AdminLoans.totalLoans (AdminLoans.loans (AdminLoansDialog.page st)) + 1
    ∧ (AdminLoans.matchesSearch
         (AdminLoans.searchTerm (AdminLoansDialog.page st)) loan = true →
       Pagination.currentRows
         (AdminLoansTabs.tabLoans AdminLoansTabs.TabAll
            (AdminLoans.filteredLoans (AdminLoansDialog.page st'))) 1
         !! 0%nat
       = Some loan)
    ∧ AdminLoansDialog.newLoan st' = AdminLoansDialog.blankForm
    ∧ AdminLoansDialog.isAddLoanOpen st' = false
    ∧ ∀ api,
        AdminLoans.loans
          (AdminLoansDialog.page (AdminLoansDialog.handleAddLoan api st'))
        = rows'.
Proof.
  intros st loan Hok. cbn.
  unfold AdminLoansDialog.handleAddLoan. rewrite Hok. cbn.
  split; [done|]. split; [unfold AdminLoans.totalLoans; cbn; lia|].
  split; [|done].
  intros Hm. unfold AdminLoans.filteredLoans, AdminLoans.filterLoans. cbn.
  rewrite Hm. by rewrite currentRows_from_one.
Qed.

Lemma added_loan_is_first_witness :
  AdminLoans.loans
    (AdminLoansDialog.page
       (AdminLoansDialog.handleAddLoan (Created Samples.approvedLoan)
          (AdminLoansDialog.handleAddLoan (Created Samples.pendingLoan)
             MoreSamples.filledLoanDialog)))
  = AdminLoans.loans
      (AdminLoansDialog.page
         (AdminLoansDialog.handleAddLoan (Created Samples.pendingLoan)
            MoreSamples.filledLoanDialog)).
Proof.
  apply (added_loan_is_first MoreSamples.filledLoanDialog Samples.pendingLoan).
  reflexivity.
Defined.

(** X19. A borrower added through the dialog becomes the last row, is
    active with no loans, and never has an empty phone: a registration
    without phone is stored as "Not provided". The Active card grows by
    one and the other two cards keep their counts. *)
Theorem added_borrower_is_last_and_active :
  ∀ (now : string) (newUser : AdminBorrowersDialog.Registered.t)
    (st : AdminBorrowersDialog.State),
    AdminBorrowersDialog.incomplete (AdminBorrowersDialog.newBorrower st)
    = false →
    let rows := AdminBorrowers.borrowers (AdminBorrowersDialog.page st) in
    let rows' :=
      AdminBorrowers.borrowers
        (AdminBorrowersDialog.page
           (AdminBorrowersDialog.handleAddBorrower now (Created newUser) st))
    in
    ∃ b : AdminBorrowers.Borrower,
      rows' = rows ++ [b]
      ∧ rows' !! length rows = Some b
      ∧ AdminBorrowers.status b = AdminBorrowers.active
      ∧ AdminBorrowers.loans b = 0
      ∧ AdminBorrowers.totalBorrowed b = 0
      ∧ AdminBorrowers.phone b ≠ ""%string
      ∧ AdminBorrowers.activeCount rows' = AdminBorrowers.activeCount rows + 1
      ∧ AdminBorrowers.inactiveCount rows' = AdminBorrowers.inactiveCount rows
      ∧ AdminBorrowers.blacklistedCount rows'
        = AdminBorrowers.blacklistedCount rows.
Proof.
  intros now newUser st Hok. cbn.
  unfold AdminBorrowersDialog.handleAddBorrower. rewrite Hok. cbn.
  exists (AdminBorrowersDialog.borrowerOf now newUser).
  split; [done|].
  split; [by rewrite lookup_app_r, Nat.sub_diag|].
  do 3 (split; [done|]).
  split; [by apply isBlank_false, orElse_not_blank|].
  unfold AdminBorrowers.activeCount, AdminBorrowers.inactiveCount,
    AdminBorrowers.blacklistedCount, AdminBorrowers.countStatus.
  rewrite !List.filter_app, !length_app. cbn. decide_statuses. cbn. lia.
Qed.

Lemma added_borrower_is_last_and_active_witness :
  ∃ b : AdminBorrowers.Borrower,
    AdminBorrowers.borrowers
      (AdminBorrowersDialog.page
         (AdminBorrowersDialog.handleAddBorrower "2025-03-01T00:00:00.000Z"
            (Created MoreSamples.registeredDipa)
            MoreSamples.filledBorrowerDialog))
    = AdminBorrowers.borrowers Samples.adminBorrowersState ++ [b]
    ∧ AdminBorrowers.phone b = "Not provided"%string.
Proof.
  destruct (added_borrower_is_last_and_active "2025-03-01T00:00:00.000Z"
              MoreSamples.registeredDipa MoreSamples.filledBorrowerDialog
              eq_refl)
    as (b & Hrows & Hlast & _).
  exists b. split; [exact Hrows|].
  cbn in Hlast. by injection Hlast as <-.
Defined.

(** ** User management *)

Lemma ids_of_filter_NoDup {A} (f : A → string) (keep : A → bool) (l : list A) :
  NoDup (f <$> l) → NoDup (f <$> List.filter keep l).
Proof.
  induction l as [|x l IH]; [done|].
  cbn. rewrite NoDup_cons. intros [Hx Hl].
  destruct (keep x); [|by apply IH].
  cbn. apply NoDup_cons. split; [|by apply IH].
  intros Hin. apply Hx.
  apply list_elem_of_fmap in Hin as (y & Hy & Hin).
  apply list_elem_of_fmap. exists y. split; [done|].
  apply list_elem_of_In. apply list_elem_of_In, filter_In in Hin. tauto.
Qed.

Lemma same_id_same_row {A} (f : A → string) (l : list A) (a b : A) :
  NoDup (f <$> l) → In a l → In b l → f a = f b → a = b.
Proof.
  induction l as [|x l IH]; [done|].
  cbn. rewrite NoDup_cons. intros [Hx Hl] [<-|Ha] [<-|Hb] Hab; auto.
  - exfalso. apply Hx. rewrite Hab.
    apply list_elem_of_fmap. exists b. by rewrite list_elem_of_In.
  - exfalso. apply Hx. rewrite <- Hab.
    apply list_elem_of_fmap. exists a. by rewrite list_elem_of_In.
Qed.

Lemma users_updateOne X r :
  ManageUsers.updateOne X r
  = mapById ManageUsers.id (ManageUsers.withRole r) X.
Proof. reflexivity. Qed.

(** X20. After a successful delete no user with that identifier is left,
    neither in the list nor in the table drawn from it; every other user is
    kept; deleting the same identifier again changes nothing; and a
    rejected delete keeps the list. *)
Theorem deleted_user_is_gone :
  ∀ (st : ManageUsers.State) (X : string),
    let st' :=
      ManageUsers.filterEffect (ManageUsers.handleDeleteUser Resolved st X) in
    (∀ u, In u (ManageUsers.users st')
          ↔ In u (ManageUsers.users st) ∧ ManageUsers.id u ≠ X)
    ∧ (∀ u, In u (ManageUsers.filteredUsers st') → ManageUsers.id u ≠ X)
    ∧ ManageUsers.users (ManageUsers.handleDeleteUser Resolved st' X)
      = ManageUsers.users st'
    ∧ ∀ message,
        ManageUsers.users
          (ManageUsers.handleDeleteUser (Rejected message) st X)
        = ManageUsers.users st.
Proof.
  intros st X. cbn.
  assert (Hkeep : ∀ u,
            negb (String.eqb (ManageUsers.id u) X) = true
            ↔ ManageUsers.id u ≠ X).
  { intros u. destruct (String.eqb_spec (ManageUsers.id u) X); cbn;
      intuition congruence. }
  split; [|split; [|split]].
  - intros u. rewrite filter_In, Hkeep. tauto.
  - intros u. rewrite !filter_In, Hkeep. tauto.
  - apply filter_twice.
  - done.
Qed.

(** X21. A successful role change replaces the role of the users with
    that identifier and nothing else: length and order of identifiers are
    kept, the other users are untouched, and name, email and creation date
    of the changed user stay. *)
Theorem role_update_frame :
  ∀ (st : ManageUsers.State) (X : string) (r : UserRole),
    let rows := ManageUsers.users st in
    let rows' :=
      ManageUsers.users (ManageUsers.handleUpdateRole Resolved st X r) in
    length rows' = length rows
    ∧ ManageUsers.id <$> rows' = ManageUsers.id <$> rows
    ∧ ∀ (i : nat) (u : ManageUsers.User),
        rows !! i = Some u →
        (ManageUsers.id u ≠ X → rows' !! i = Some u)
        ∧ (ManageUsers.id u = X →
           ∃ u', rows' !! i = Some u'
                 ∧ ManageUsers.role u' = r
                 ∧ ManageUsers.name u' = ManageUsers.name u
                 ∧ ManageUsers.email u' = ManageUsers.email u
                 ∧ ManageUsers.createdAt u' = ManageUsers.createdAt u).
Proof.
  intros st X r. cbn. rewrite users_updateOne.
  split; [apply mapById_length|].
  split; [by apply mapById_ids|].
  intros i u Hi. split; intros Hid.
  - by apply mapById_lookup_miss.
  - exists (ManageUsers.withRole r u).
    split; [by apply mapById_lookup_hit | done].
Qed.

Lemma tableClick_keeps_locked_rows st st' :
  NoDup (ManageUsers.id <$> ManageUsers.users st) →
  (∀ u, In u (ManageUsers.filteredUsers st) → In u (ManageUsers.users st)) →
  ManageUsers.tableClick st st' →
  NoDup (ManageUsers.id <$> ManageUsers.users st')
  ∧ (∀ u, In u (ManageUsers.filteredUsers st')
          → In u (ManageUsers.users st'))
  ∧ ∀ m, In m (ManageUsers.users st) → ManageUsers.rowDisabled m = true →
         In m (ManageUsers.users st').
Proof.
  intros Hnd Hsub Hclick.
  assert (Hother : ∀ u m,
            In u (ManageUsers.filteredUsers st) →
            ManageUsers.rowDisabled u = false →
            In m (ManageUsers.users st) →
            ManageUsers.rowDisabled m = true →
            ManageUsers.id m ≠ ManageUsers.id u).
  { intros u m Hu Hen Hm Hdis Hid.
    assert (m = u) by eauto using same_id_same_row. congruence. }
  destruct Hclick as [u api Hu Hen | u r api Hu Hen]; destruct api; cbn;
    (split; [|split; [intros v Hv; by apply filter_In in Hv as [? _]|]]);
    try done.
  - by apply ids_of_filter_NoDup.
  - intros m Hm Hdis. apply filter_In. split; [done|].
    destruct (String.eqb_spec (ManageUsers.id m) (ManageUsers.id u));
      [|done].
    exfalso. eapply Hother; eauto.
  - rewrite users_updateOne. by rewrite mapById_ids.
  - intros m Hm Hdis. apply in_map_iff. exists m. split; [|done].
    rewrite users_updateOne. apply mapById_miss. eauto.
Qed.

(** X22. The main admin is protected: in a list with distinct
    identifiers, no sequence of uses of the enabled Delete buttons and role
    selectors of the table, whatever the backend answers, removes or
    changes the user whose email is "admin@example.com". *)
Theorem main_admin_is_protected :
  ∀ (st st' : ManageUsers.State) (m : ManageUsers.User),
    NoDup (ManageUsers.id <$> ManageUsers.users st) →
    (∀ u, In u (ManageUsers.filteredUsers st) → In u (ManageUsers.users st)) →
    rtc ManageUsers.tableClick st st' →
    In m (ManageUsers.users st) →
    ManageUsers.email m = "admin@example.com"%string →
    In m (ManageUsers.users st').
Proof.
  intros st st' m Hnd Hsub Hrun Hm Hmail.
  assert (Hdis : ManageUsers.rowDisabled m = true).
  { unfold ManageUsers.rowDisabled. by rewrite Hmail. }
  induction Hrun as [st | st mid st' Hstep _ IH]; [done|].
  destruct (tableClick_keeps_locked_rows st mid Hnd Hsub Hstep)
    as (Hnd' & Hsub' & Hkeep).
  apply IH; auto.
Qed.

Lemma main_admin_is_protected_witness :
  In MoreSamples.mainAdmin
    (ManageUsers.users
       (ManageUsers.filterEffect
          (ManageUsers.handleDeleteUser Resolved MoreSamples.usersState
             "v1"))).
Proof.
  apply (main_admin_is_protected MoreSamples.usersState _
           MoreSamples.mainAdmin).
  - cbn. repeat constructor; rewrite ?list_elem_of_In; cbn;
      intuition discriminate.
  - intros u Hu. exact Hu.
  - apply rtc_once.
    apply (ManageUsers.ClickDelete MoreSamples.usersState MoreSamples.clerk
             Resolved); [cbn; tauto | reflexivity].
  - cbn. tauto.
  - reflexivity.
Defined.

(** ** Further search and handler facts *)

(** X23. After the search effect the users table shows, in list order,
    exactly the users for which the lower-cased term occurs in the
    lower-cased name, email or role; with an empty term it shows every
    user. *)
Theorem user_search_contract :
  ∀ st : ManageUsers.State,
    let shown := ManageUsers.filteredUsers (ManageUsers.filterEffect st) in
    (∀ u, In u shown
          ↔ In u (ManageUsers.users st)
            ∧ (occursIn (Js.toLowerCase (ManageUsers.searchTerm st))
                 (Js.toLowerCase (ManageUsers.name u))
               ∨ occursIn (Js.toLowerCase (ManageUsers.searchTerm st))
                   (Js.toLowerCase (ManageUsers.email u))
               ∨ occursIn (Js.toLowerCase (ManageUsers.searchTerm st))
                   (Js.toLowerCase
                      (ManageUsers.roleString (ManageUsers.role u)))))
    ∧ shown `sublist_of` ManageUsers.users st
    ∧ (ManageUsers.searchTerm st = ""%string → shown = ManageUsers.users st).
Proof.
  intros st. cbn. split; [|split].
  - intros u. rewrite filter_In. unfold ManageUsers.matchesSearch.
    rewrite !orb_true_iff, !includes_spec. tauto.
  - generalize (ManageUsers.matchesSearch (ManageUsers.searchTerm st)).
    intros keep. induction (ManageUsers.users st) as [|x l IH]; [done|].
    cbn. destruct (keep x); by constructor.
  - intros ->. apply filter_keeps_all. intros u.
    unfold ManageUsers.matchesSearch. cbn. by rewrite includes_empty.
Qed.

Lemma status_text_round_trip s :
  Js.toLowerCase (Js.toUpperCase (statusString s)) = statusString s
  ∧ Js.toLowerCase (statusString s) = statusString s.
Proof. by destruct s. Qed.

Lemma includes_self s : Js.includes s s = true.
Proof.
  apply includes_spec. exists EmptyString, EmptyString. cbn.
  induction s as [|c s IH]; cbn; congruence.
Qed.

(** X24. A loan matches the admin search exactly when the lower-cased
    term occurs in the lower-cased borrower name, reason or status. In
    particular the name of a status, typed in lower or in upper case,
    finds every loan in that status, and after a successful status update
    the updated loan is found under its new status. *)
Theorem loan_search_contract :
  (∀ (term : string) (loan : AdminLoans.Loan),
     AdminLoans.matchesSearch term loan = true
     ↔ occursIn (Js.toLowerCase term)
         (Js.toLowerCase (AdminLoans.User.name (AdminLoans.user loan)))
       ∨ occursIn (Js.toLowerCase term)
           (Js.toLowerCase (AdminLoans.reason loan))
       ∨ occursIn (Js.toLowerCase term)
           (Js.toLowerCase (statusString (AdminLoans.status loan))))
  ∧ (∀ loan : AdminLoans.Loan,
       AdminLoans.matchesSearch (statusString (AdminLoans.status loan)) loan
       = true
       ∧ AdminLoans.matchesSearch
           (Js.toUpperCase (statusString (AdminLoans.status loan))) loan
         = true)
  ∧ (∀ (st : AdminLoans.State) (X : string) (s : LoanStatus)
       (loan : AdminLoans.Loan),
       In loan (AdminLoans.loans st) →
       AdminLoans._id loan = X →
       In (AdminLoans.withStatus s loan)
         (AdminLoans.filterLoans (statusString s)
            (AdminLoans.loans
               (AdminLoans.handleUpdateStatus Resolved st X s)))).
Proof.
  assert (Hfind : ∀ loan : AdminLoans.Loan,
            AdminLoans.matchesSearch (statusString (AdminLoans.status loan))
              loan = true
            ∧ AdminLoans.matchesSearch
                (Js.toUpperCase (statusString (AdminLoans.status loan))) loan
              = true).
  { intros loan. unfold AdminLoans.matchesSearch.
    destruct (status_text_round_trip (AdminLoans.status loan)) as [-> ->].
    rewrite includes_self, !orb_true_r. done. }
  split; [|split; [exact Hfind|]].
  - intros term loan. unfold AdminLoans.matchesSearch.
    rewrite !orb_true_iff, !includes_spec. tauto.
  - intros st X s loan Hin Hid. apply filter_In. split.
    + cbn. apply in_map_iff. exists loan. split; [|done].
      rewrite admin_loans_updateOne. by apply mapById_hit.
    + apply (Hfind (AdminLoans.withStatus s loan)).
Qed.

Lemma loan_search_contract_witness :
  In (AdminLoans.withStatus disbursed Samples.approvedLoan)
    (AdminLoans.filterLoans (statusString disbursed)
       (AdminLoans.loans
          (AdminLoans.handleUpdateStatus Resolved Samples.adminLoansState
             "loan-1" disbursed))).
Proof.
  apply (proj2 (proj2 loan_search_contract) Samples.adminLoansState
           "loan-1"%string disbursed Samples.approvedLoan).
  - cbn. tauto.
  - reflexivity.
Defined.

(** X25. The two verifier loan handlers, of the verifier loans page and
    of the dashboard, update like the admin ones: length and order of
    identifiers are kept, the other rows are untouched, and the rows with
    the identifier get the new status. *)
Theorem verifier_update_frame :
  (∀ (st : VerifierLoans.State) (X : string) (s : VerifierLoans.Status),
     let rows := VerifierLoans.loans st in
     let rows' :=
       VerifierLoans.loans (VerifierLoans.handleUpdateStatus Resolved st X s)
     in
     length rows' = length rows
     ∧ VerifierLoans._id <$> rows' = VerifierLoans._id <$> rows
     ∧ ∀ (i : nat) (r : VerifierLoans.Loan),
         rows !! i = Some r →
         (VerifierLoans._id r ≠ X → rows' !! i = Some r)
         ∧ (VerifierLoans._id r = X →
            rows' !! i = Some (VerifierLoans.withStatus s r)))
  ∧ (∀ (st : VerifierDashboard.State) (X : string) (s : LoanStatus),
       let rows := VerifierDashboard.loans st in
       let rows' :=
         VerifierDashboard.loans
           (VerifierDashboard.handleStatusChange Resolved st X s) in
       length rows' = length rows
       ∧ VerifierDashboard.id <$> rows' = VerifierDashboard.id <$> rows
       ∧ ∀ (i : nat) (r : VerifierDashboard.Loan),
           rows !! i = Some r →
           (VerifierDashboard.id r ≠ X → rows' !! i = Some r)
           ∧ (VerifierDashboard.id r = X →
              rows' !! i = Some (VerifierDashboard.withStatus s r))).
Proof.
  split; intros st X s; cbn.
  - rewrite verifier_loans_updateOne.
    split; [apply mapById_length|].
    split; [by apply mapById_ids|].
    intros i r Hi. split; intros Hid.
    + by apply mapById_lookup_miss.
    + by apply mapById_lookup_hit.
  - rewrite dashboard_updateOne.
    split; [apply mapById_length|].
    split; [by apply mapById_ids|].
    intros i r Hi. split; intros Hid.
    + by apply mapById_lookup_miss.
    + by apply mapById_lookup_hit.
Qed.

(** X26. A rejected status request never changes the rows or the search
    term of the admin loans, admin borrowers and verifier borrowers pages;
    it appends one destructive toast, whose description is never empty,
    even when the backend sends no message or an empty one. *)
Theorem rejected_update_only_toasts :
  ∀ message : option string,
    (∀ st X s,
       let st' := AdminLoans.handleUpdateStatus (Rejected message) st X s in
       AdminLoans.loans st' = AdminLoans.loans st
       ∧ AdminLoans.searchTerm st' = AdminLoans.searchTerm st
       ∧ ∃ t, AdminLoans.toasts st' = AdminLoans.toasts st ++ [t]
              ∧ variant t = Some "destructive"%string
              ∧ description t ≠ ""%string)
    ∧ (∀ st X s,
         let st' :=
           AdminBorrowers.handleUpdateStatus (Rejected message) st X s in
         AdminBorrowers.borrowers st' = AdminBorrowers.borrowers st
         ∧ AdminBorrowers.searchTerm st' = AdminBorrowers.searchTerm st
         ∧ ∃ t, AdminBorrowers.toasts st' = AdminBorrowers.toasts st ++ [t]
                ∧ variant t = Some "destructive"%string
                ∧ description t ≠ ""%string)
    ∧ (∀ st X s,
         let st' :=
           VerifierBorrowers.handleUpdateStatus (Rejected message) st X s in
         VerifierBorrowers.borrowers st' = VerifierBorrowers.borrowers st
         ∧ VerifierBorrowers.searchTerm st' = VerifierBorrowers.searchTerm st
         ∧ ∃ t, VerifierBorrowers.toasts st'
                = VerifierBorrowers.toasts st ++ [t]
                ∧ variant t = Some "destructive"%string
                ∧ description t ≠ ""%string).
Proof.
  intros message.
  split; [|split]; intros st X s; cbn; (split; [done|]); (split; [done|]);
    eexists; (split; [reflexivity|]); (split; [reflexivity|]); cbn;
    by apply isBlank_false, orElse_not_blank.
Qed.
